(** * tlslite/x509.py: the X.509 certificate entity

    A shallow embedding of the class [X509] of tlslite-ng
    (tlslite/x509.py) and the properties its specification states.

    The class keeps four attributes ([bytes], [publicKey], [subject],
    [certAlg]) and fills them while it walks an ASN.1 tree.  Python
    keeps every attribute written before an exception is raised, so the
    methods are embedded in a state-and-exception monad whose state
    survives a failure.

    The modules [x509.py] imports (the ASN.1 parser, PEM armor,
    big-integer decoding, the key constructors, SHA-1 and hex encoding)
    are collaborators: the general theorems hold for every
    implementation of the interface [Collaborators]; a concrete
    implementation is given in [Module Reference] and used to run the
    methods on explicit certificates. *)

From Stdlib Require Import List NArith String Ascii Bool Arith Lia.
From Stdlib Require Import Strings.Byte.
Import ListNotations.

Set Implicit Arguments.

(** ** Bytes and exceptions *)

(** A [bytearray] (and a Python 2 [str] used as one) is a sequence of
    unsigned octets. *)
Definition bytearray := list byte.

(** [list(b)] on a bytearray: its octets as integers. *)
Definition list_ (b : bytearray) : list N := map Byte.to_N b.

(** Comparison of two integer lists, [list(x) == [...]]. *)
Definition list_eqb (a b : list N) : bool :=
  if list_eq_dec N.eq_dec a b then true else false.

(** Comparison of two byte sequences, [x != bytearray(0)],
    [x[:2] != b'\000\004']. *)
Definition bytes_eqb (a b : bytearray) : bool :=
  if list_eq_dec Byte.byte_eq_dec a b then true else false.

(** The bytes of a list of integer literals. *)
Definition octet (n : N) : byte :=
  match Byte.of_N n with Some b => b | None => x00 end.
Definition octets (l : list N) : bytearray := map octet l.

(** The curves [x509.py] imports from [ecdsa.curves]. *)
Inductive Curve : Set := NIST256p | NIST384p | NIST521p.

(** What a collaborator reports when it fails.  [x509.py] catches
    nothing, so these reach the caller unchanged. *)
Inductive external_error : Set :=
| DecodeError          (* ASN1Parser: malformed or truncated TLV *)
| ArmorError           (* dePem: PEM markers or base64 payload invalid *)
| KeyConstructionError (* _createPublicRSAKey, VerifyingKey.from_string *).

(** The exceptions a method of [X509] can end with: a [SyntaxError]
    raised in [x509.py] itself (with its message, or without one), the
    [IndexError] of subscripting an empty bytearray, or a collaborator's
    failure. *)
Inductive exn : Set :=
| SyntaxError (msg : option string)
| IndexError
| Collaborator (e : external_error).

(** The names the specification gives to the errors of [x509.py]. *)
Definition UnrecognizedAlgorithm : exn :=
  SyntaxError (Some "Unrecognized AlgorithmIdentifier"%string).
Definition MissingParameters : exn :=
  SyntaxError (Some "Missing parameters in AlgorithmIdentifier"%string).
Definition NonNullParameters : exn :=
  SyntaxError
    (Some "Unexpected non-NULL parameters in AlgorithmIdentifier"%string).
Definition UnknownCurve : exn :=
  SyntaxError (Some "Unknown elliptic curve"%string).
Definition InvalidBitStringEncoding : exn := SyntaxError None.
Definition UnexpectedPublicKeyEncoding : exn :=
  SyntaxError (Some "Unexpected public key encoding"%string).

(** [InvalidAlgorithmParameters] covers both messages of lines 100/107
    and 103. *)
Definition InvalidAlgorithmParameters (e : exn) : bool :=
  match e with
  | SyntaxError (Some m) =>
      String.eqb m "Missing parameters in AlgorithmIdentifier" ||
      String.eqb m "Unexpected non-NULL parameters in AlgorithmIdentifier"
  | _ => false
  end.

(** ** The attributes of an [X509] object *)

(** [publicKey] holds what one of the two key constructors returned, an
    object of the type that constructor returns. *)
Inductive PublicKeyOf (RSAKey VerifyingKey : Type) : Type :=
| RsaPublicKey (k : RSAKey)
| EcPublicKey (k : VerifyingKey).

Arguments RsaPublicKey {RSAKey VerifyingKey} k.
Arguments EcPublicKey {RSAKey VerifyingKey} k.

(** The four attributes; [None] is Python's [None]. *)
Record Attributes (RSAKey VerifyingKey : Type) : Type := mkX509 {
  bytes : bytearray;
  publicKey : option (PublicKeyOf RSAKey VerifyingKey);
  subject : option bytearray;
  certAlg : option string
}.

Arguments mkX509 {RSAKey VerifyingKey} _ _ _ _.

(** ** The collaborators of [x509.py] *)

Class Collaborators : Type := {
  (** [tlslite.utils.asn1parser.ASN1Parser]: the constructor and the
      methods and attribute [x509.py] uses. *)
  ASN1Node : Type;
  ASN1Parser : bytearray -> external_error + ASN1Node;
  value : ASN1Node -> bytearray;
  getChild : ASN1Node -> nat -> external_error + ASN1Node;
  getChildBytes : ASN1Node -> nat -> external_error + bytearray;
  getChildCount : ASN1Node -> external_error + nat;
  (** [tlslite.utils.cryptomath.bytesToNumber] *)
  bytesToNumber : bytearray -> N;
  (** [tlslite.utils.keyfactory._createPublicRSAKey] *)
  RSAKey : Type;
  _createPublicRSAKey : N -> N -> external_error + RSAKey;
  (** [ecdsa.keys.VerifyingKey] and its [from_string] *)
  VerifyingKey : Type;
  VerifyingKey_from_string : bytearray -> Curve ->
                             external_error + VerifyingKey;
  (** [tlslite.utils.pem.dePem] *)
  dePem : string -> string -> external_error + bytearray;
  (** [tlslite.utils.cryptomath.SHA1] and [b2a_hex] *)
  SHA1 : bytearray -> bytearray;
  b2a_hex : bytearray -> string
}.

(** ** The class [X509] *)

Section X509.

Context {C : Collaborators}.

(** The key and the object, for the key types of the collaborators at
    hand. *)
Definition PublicKey : Type := PublicKeyOf RSAKey VerifyingKey.
Definition X509 : Type := Attributes RSAKey VerifyingKey.

(** [__init__] (lines 34-39). *)
Definition __init__ : X509 :=
  {| bytes := []; publicKey := None; subject := None; certAlg := None |}.

(** *** Methods as state transformers that may raise

    A method maps [self] to the [self] it leaves behind and either the
    exception it raised or its return value. *)
Definition M (A : Type) : Type := X509 -> X509 * (exn + A).

Definition ret {A} (a : A) : M A := fun self => (self, inr a).

Definition raise {A} (e : exn) : M A := fun self => (self, inl e).

Definition bind {A B} (m : M A) (k : A -> M B) : M B :=
  fun self =>
    match m self with
    | (self', inl e) => (self', inl e)
    | (self', inr a) => k a self'
    end.

(** A call to a collaborator: its failure propagates. *)
Definition call {A} (r : external_error + A) : M A :=
  fun self =>
    match r with
    | inl e => (self, inl (Collaborator e))
    | inr a => (self, inr a)
    end.

(** [b[0]] on a bytearray. *)
Definition item0 (b : bytearray) : M N :=
  match b with
  | [] => raise IndexError
  | x :: _ => ret (Byte.to_N x)
  end.

(** Attribute reads and writes. *)
Definition get_certAlg : M (option string) :=
  fun self => (self, inr (certAlg self)).

Definition set_bytes (v : bytearray) : M unit :=
  fun self =>
    (mkX509 v (publicKey self) (subject self) (certAlg self), inr tt).

Definition set_publicKey (v : PublicKey) : M unit :=
  fun self =>
    (mkX509 (bytes self) (Some v) (subject self) (certAlg self), inr tt).

Definition set_subject (v : bytearray) : M unit :=
  fun self =>
    (mkX509 (bytes self) (publicKey self) (Some v) (certAlg self), inr tt).

Definition set_certAlg (v : string) : M unit :=
  fun self =>
    (mkX509 (bytes self) (publicKey self) (subject self) (Some v), inr tt).

End X509.

Declare Scope x509_scope.
Delimit Scope x509_scope with x509.
Notation "x <- m ;; k" := (bind m (fun x => k))
  (at level 61, m at next level, right associativity) : x509_scope.
Notation "m ;; k" := (bind m (fun _ => k))
  (at level 61, right associativity) : x509_scope.

Section Methods.

Context {C : Collaborators}.
Local Open Scope x509_scope.

(** [self.certAlg == name] *)
Definition certAlg_is (a : option string) (name : string) : bool :=
  match a with
  | Some s => String.eqb s name
  | None => false
  end.

(** [_rsaPubKeyParsing] (lines 124-143). *)
Definition _rsaPubKeyParsing (subjectPublicKeyInfoP : ASN1Node) : M unit :=
  (* Get the subjectPublicKey *)
  subjectPublicKeyP <- call (getChild subjectPublicKeyInfoP 1) ;;
  (* Adjust for BIT STRING encapsulation *)
  unused <- item0 (value subjectPublicKeyP) ;;
  if negb (unused =? 0)%N then raise (SyntaxError None) else
  subjectPublicKeyP <- call (ASN1Parser (skipn 1 (value subjectPublicKeyP))) ;;
  (* Get the modulus and exponent *)
  modulusP <- call (getChild subjectPublicKeyP 0) ;;
  publicExponentP <- call (getChild subjectPublicKeyP 1) ;;
  (* Decode them into numbers *)
  let n := bytesToNumber (value modulusP) in
  let e := bytesToNumber (value publicExponentP) in
  (* Create a public key instance *)
  k <- call (_createPublicRSAKey n e) ;;
  set_publicKey (RsaPublicKey k).

(** [_ecdsaPubKeyParsing] (lines 145-150). *)
Definition _ecdsaPubKeyParsing (subjectPublicKeyInfoP : ASN1Node)
    (curve : Curve) : M unit :=
  subjectPublicKeyP <- call (getChild subjectPublicKeyInfoP 1) ;;
  let derPubKey := value subjectPublicKeyP in
  if negb (bytes_eqb (firstn 2 derPubKey) (octets [0; 4]%N))
  then raise (SyntaxError (Some "Unexpected public key encoding"%string))
  else
  k <- call (VerifyingKey_from_string (skipn 2 derPubKey) curve) ;;
  set_publicKey (EcPublicKey k).

(** Lines 82-122 of [parseBinary]: everything it does once it holds
    [subjectPublicKeyInfoP], the only local variable these lines read.
    The [return] of line 118 ends the ECDSA branch; the two RSA
    branches fall through to the call of line 122. *)
Definition parseBinary_subjectPublicKeyInfo
    (subjectPublicKeyInfoP : ASN1Node) : M unit :=
  (* Get the AlgorithmIdentifier *)
  algIdentifier <- call (getChild subjectPublicKeyInfoP 0) ;;
  algIdentifierLen <- call (getChildCount algIdentifier) ;;
  (* first item of AlgorithmIdentifier is the algorithm *)
  alg <- call (getChild algIdentifier 0) ;;
  let algOID := value alg in
  (if list_eqb (list_ algOID) [42; 134; 72; 134; 247; 13; 1; 1; 1]%N
   then set_certAlg "rsa"
   else if list_eqb (list_ algOID) [42; 134; 72; 134; 247; 13; 1; 1; 10]%N
   then set_certAlg "rsa-pss"
   else if list_eqb (list_ algOID) [42; 134; 72; 206; 61; 2; 1]%N
   then set_certAlg "ecdsa"
   else raise (SyntaxError (Some "Unrecognized AlgorithmIdentifier"%string))) ;;
  (* for RSA the parameters of AlgorithmIdentifier should be a NULL *)
  a <- get_certAlg ;;
  if certAlg_is a "rsa" then
    (if negb (algIdentifierLen =? 2)
     then raise (SyntaxError
                   (Some "Missing parameters in AlgorithmIdentifier"%string))
     else ret tt) ;;
    params <- call (getChild algIdentifier 1) ;;
    (if negb (bytes_eqb (value params) [])
     then raise (SyntaxError
       (Some "Unexpected non-NULL parameters in AlgorithmIdentifier"%string))
     else ret tt) ;;
    _rsaPubKeyParsing subjectPublicKeyInfoP
  else if certAlg_is a "ecdsa" then
    (if negb (algIdentifierLen =? 2)
     then raise (SyntaxError
                   (Some "Missing parameters in AlgorithmIdentifier"%string))
     else ret tt) ;;
    curveId <- call (getChild algIdentifier 1) ;;
    if list_eqb (list_ (value curveId)) [42; 134; 72; 206; 61; 3; 1; 7]%N
    then _ecdsaPubKeyParsing subjectPublicKeyInfoP NIST256p
    else if list_eqb (list_ (value curveId)) [43; 129; 4; 0; 34]%N
    then _ecdsaPubKeyParsing subjectPublicKeyInfoP NIST384p
    else if list_eqb (list_ (value curveId)) [43; 129; 4; 0; 35]%N
    then _ecdsaPubKeyParsing subjectPublicKeyInfoP NIST521p
    else raise (SyntaxError (Some "Unknown elliptic curve"%string))
  else (* rsa-pss: ignore parameters, if any *)
    _rsaPubKeyParsing subjectPublicKeyInfoP.

(** Lines 69-72: the index of subjectPublicKeyInfo in tbsCertificate,
    from the first byte of its value. *)
Definition subjectPublicKeyInfoIndex (first : N) : nat :=
  if (first =? 0xA0)%N then 6 else 5.

(** [parseBinary] (lines 54-122). *)
Definition parseBinary (bytes : bytearray) : M unit :=
  set_bytes bytes ;;
  p <- call (ASN1Parser bytes) ;;
  (* Get the tbsCertificate *)
  tbsCertificateP <- call (getChild p 0) ;;
  (* Is the optional version field present? *)
  first <- item0 (value tbsCertificateP) ;;
  let subjectPublicKeyInfoIndex := subjectPublicKeyInfoIndex first in
  (* Get the subject *)
  subj <- call (getChildBytes tbsCertificateP
                  (subjectPublicKeyInfoIndex - 1)) ;;
  set_subject subj ;;
  (* Get the subjectPublicKeyInfo *)
  subjectPublicKeyInfoP <- call (getChild tbsCertificateP
                                   subjectPublicKeyInfoIndex) ;;
  parseBinary_subjectPublicKeyInfo subjectPublicKeyInfoP.

(** [parse] (lines 41-52); it returns [self]. *)
Definition parse (s : string) : M X509 :=
  bytes <- call (dePem s "CERTIFICATE") ;;
  parseBinary bytes ;;
  fun self => (self, inr self).

(** [getFingerprint] (lines 152-159). *)
Definition getFingerprint : M string :=
  fun self => (self, inr (b2a_hex (SHA1 (bytes self)))).

(** [writeBytes] (lines 161-163). *)
Definition writeBytes : M bytearray :=
  fun self => (self, inr (bytes self)).

End Methods.

(** ** A reference implementation of the collaborators *)

Module Reference.

(** *** ASN.1 decoder *)

(** Modelled from the spec: the cursor the ASN.1 decoder reads with
    (the [Parser] of tlslite/utils/codec.py, not among the sources).
    A cursor into an immutable buffer is the buffer's unread suffix;
    [get] reads a big-endian integer of [len] bytes and fails on a
    truncated buffer. *)
Definition get (len : N) (rest : bytearray)
    : external_error + (N * bytearray) :=
  if (N.of_nat (List.length rest) <? len)%N then inl DecodeError
  else
    let n := N.to_nat len in
    inr (fold_left (fun x b => N.lor (N.shiftl x 8) (Byte.to_N b))
                   (firstn n rest) 0%N,
         skipn n rest).

(** Modelled from the spec: [Parser.getFixBytes], the next [len] bytes
    of the buffer. *)
Definition getFixBytes (len : N) (rest : bytearray)
    : external_error + (bytearray * bytearray) :=
  if (N.of_nat (List.length rest) <? len)%N then inl DecodeError
  else
    let n := N.to_nat len in
    inr (firstn n rest, skipn n rest).

(** Modelled from the spec: the DER length field, short form (one byte
    up to 127) or long form (the low seven bits count the length
    bytes); "must fail with a structural-decode error on
    truncated/invalid length fields". *)
Definition _getASN1Length (rest : bytearray)
    : external_error + (N * bytearray) :=
  match get 1 rest with
  | inl e => inl e
  | inr (firstLength, rest1) =>
      if (firstLength <=? 127)%N then inr (firstLength, rest1)
      else get (N.land firstLength 0x7F) rest1
  end.

(** Modelled from the spec: one tag-length-value element at the head of
    a buffer: its value, and what follows it. *)
Definition element (buf : bytearray)
    : external_error + (bytearray * bytearray) :=
  match get 1 buf with                  (* skip Type *)
  | inl e => inl e
  | inr (_, rest1) =>
      match _getASN1Length rest1 with
      | inl e => inl e
      | inr (len, rest2) => getFixBytes len rest2
      end
  end.

(** Modelled from the spec: the tree node of the ASN.1 decoder,
    "a navigable tree node" that exposes "a node's decoded value
    bytes" (tlslite/utils/asn1parser.py is not among the sources). *)
Record node : Set := mkNode { node_length : nat; node_value : bytearray }.

(** Modelled from the spec: the ASN.1 decoder's constructor, "given a
    byte sequence, returns a navigable tree node". *)
Definition ASN1Parser (bytes : bytearray) : external_error + node :=
  match element bytes with
  | inl e => inl e
  | inr (v, _) => inr (mkNode (List.length v) v)
  end.

(** Modelled from the spec: "get a child's raw encoded bytes
    (tag+length+value) by index": the elements of the value are read
    in turn and the bytes of the one at index [which] returned. *)
Fixpoint childBytes (which : nat) (buf : bytearray)
    : external_error + bytearray :=
  match element buf with
  | inl e => inl e
  | inr (_, rest) =>
      match which with
      | O => inr (firstn (List.length buf - List.length rest) buf)
      | S w => childBytes w rest
      end
  end.

Definition getChildBytes (p : node) (which : nat)
    : external_error + bytearray :=
  childBytes which (node_value p).

(** Modelled from the spec: "get the Nth immediate child of a
    constructed node (0-indexed)". *)
Definition getChild (p : node) (which : nat) : external_error + node :=
  match getChildBytes p which with
  | inl e => inl e
  | inr b => ASN1Parser b
  end.

(** Modelled from the spec: "get a node's count of immediate
    children": elements are read until the value is used up.  Every
    element takes at least its tag byte, so [fuel] of the buffer's
    length is never exhausted (see [countChildren_fuel]). *)
Fixpoint countChildren (fuel : nat) (buf : bytearray)
    : external_error + nat :=
  match buf with
  | [] => inr 0
  | _ :: _ =>
      match fuel with
      | O => inl DecodeError
      | S fuel' =>
          match element buf with
          | inl e => inl e
          | inr (_, rest) =>
              match countChildren fuel' rest with
              | inl e => inl e
              | inr n => inr (S n)
              end
          end
      end
  end.

Definition getChildCount (p : node) : external_error + nat :=
  countChildren (List.length (node_value p)) (node_value p).

(** *** Numbers and keys *)

(** Modelled from the spec: the big-integer decoder, "byte sequence
    (unsigned, big-endian, DER INTEGER content) -> unsigned integer
    value" (tlslite/utils/cryptomath.py is not among the sources). *)
Definition bytesToNumber (b : bytearray) : N :=
  fold_left (fun total byte => (total * 256 + Byte.to_N byte)%N) b 0%N.

(** Modelled from the spec: the RSA key constructor,
    "(modulus, exponent) -> opaque RSA public key handle". *)
Record RSAKey : Set := mkRSAKey { rsa_n : N; rsa_e : N }.

Definition _createPublicRSAKey (n e : N) : external_error + RSAKey :=
  inr (mkRSAKey n e).

(** The field prime and the coefficient [b] of the three curves
    (y^2 = x^3 - 3x + b), and the byte length of a coordinate. *)
Definition curve_p (c : Curve) : N :=
  match c with
  | NIST256p => 2^256 - 2^224 + 2^192 + 2^96 - 1
  | NIST384p => 2^384 - 2^128 - 2^96 + 2^32 - 1
  | NIST521p => 2^521 - 1
  end%N.

Definition curve_b (c : Curve) : N :=
  match c with
  | NIST256p =>
    0x5ac635d8aa3a93e7b3ebbd55769886bc651d06b0cc53b0f63bce3c3e27d2604b
  | NIST384p =>
    0xb3312fa7e23ee7e4988e056be3f82d19181d9c6efe8141120314088f5013875ac656398d8a2ed19d2a85c8edd3ec2aef
  | NIST521p =>
    0x0051953eb9618e1c9a1f929a21a0b68540eea2da725b99b315f3b8b489918ef109e156193951ec7e937b1652c0bd3bb1bf073573df883d2c34f1ef451fd46b503f00
  end%N.

Definition baselen (c : Curve) : nat :=
  match c with NIST256p => 32 | NIST384p => 48 | NIST521p => 66 end.

(** Modelled from the spec: the EC public key, a point on a named
    curve. *)
Record VerifyingKey : Set :=
  mkVerifyingKey { vk_curve : Curve; vk_x : N; vk_y : N }.

Definition on_curve (c : Curve) (x y : N) : bool :=
  let p := curve_p c in
  ((x <? p) && (y <? p) &&
   ((y * y) mod p =? (x * x * x + (p - 3) * x + curve_b c) mod p))%N.

(** Modelled from the spec: the EC key constructor, "(curve,
    x-coordinate bytes, y-coordinate bytes) -> opaque EC public key
    handle; may fail if the point is not on the curve"; the two
    coordinates are the halves of the string, each of the curve's
    field byte length. *)
Definition VerifyingKey_from_string (s : bytearray) (c : Curve)
    : external_error + VerifyingKey :=
  if negb (List.length s =? 2 * baselen c) then inl KeyConstructionError
  else
    let x := bytesToNumber (firstn (baselen c) s) in
    let y := bytesToNumber (skipn (baselen c) s) in
    if on_curve c x y then inr (mkVerifyingKey c x y)
    else inl KeyConstructionError.

(** *** SHA-1 and hexadecimal text *)

Definition w32 (x : N) : N := N.land x 0xFFFFFFFF.

Definition rotl (n x : N) : N :=
  w32 (N.lor (N.shiftl x n) (N.shiftr x (32 - n))).

(** The message followed by the bit 1, zero bytes up to 56 modulo 64,
    and the bit length on eight bytes. *)
Definition be_bytes (count : nat) (x : N) : bytearray :=
  map (fun i => octet (N.land (N.shiftr x (8 * N.of_nat i)) 0xFF))
      (rev (seq 0 count)).

Definition sha1_pad (msg : bytearray) : bytearray :=
  let len := List.length msg in
  msg ++ [octet 0x80] ++ repeat x00 ((119 - len mod 64) mod 64)
      ++ be_bytes 8 (8 * N.of_nat len).

Definition be_word (b : bytearray) : N :=
  fold_left (fun x y => N.lor (N.shiftl x 8) (Byte.to_N y)) b 0%N.

Fixpoint words (count : nat) (b : bytearray) : list N :=
  match count with
  | O => []
  | S k => be_word (firstn 4 b) :: words k (skipn 4 b)
  end.

(** The message schedule, most recent word first. *)
Fixpoint schedule (count : nat) (w : list N) : list N :=
  match count with
  | O => w
  | S k =>
      let x := N.lxor (N.lxor (nth 2 w 0%N) (nth 7 w 0%N))
                      (N.lxor (nth 13 w 0%N) (nth 15 w 0%N)) in
      schedule k (rotl 1 x :: w)
  end.

Definition sha1_f (t : nat) (b c d : N) : N :=
  if t <? 20 then N.lor (N.land b c) (N.land (N.lxor b 0xFFFFFFFF) d)
  else if t <? 40 then N.lxor (N.lxor b c) d
  else if t <? 60 then
    N.lor (N.lor (N.land b c) (N.land b d)) (N.land c d)
  else N.lxor (N.lxor b c) d.

Definition sha1_k (t : nat) : N :=
  if t <? 20 then 0x5A827999
  else if t <? 40 then 0x6ED9EBA1
  else if t <? 60 then 0x8F1BBCDC
  else 0xCA62C1D6.

Definition sha1_state : Set := (N * N * N * N * N)%type.

Definition sha1_round (st : nat * sha1_state) (w : N) : nat * sha1_state :=
  let '(t, (a, b, c, d, e)) := st in
  let temp := w32 (rotl 5 a + sha1_f t b c d + e + sha1_k t + w) in
  (S t, (temp, a, rotl 30 b, c, d)).

Definition sha1_block (h : sha1_state) (block : bytearray) : sha1_state :=
  let w := rev (schedule 64 (rev (words 16 block))) in
  let '(h0, h1, h2, h3, h4) := h in
  let '(_, (a, b, c, d, e)) := fold_left sha1_round w (0, h) in
  (w32 (h0 + a), w32 (h1 + b), w32 (h2 + c), w32 (h3 + d), w32 (h4 + e)).

Fixpoint sha1_blocks (count : nat) (h : sha1_state) (b : bytearray)
    : sha1_state :=
  match count with
  | O => h
  | S k => sha1_blocks k (sha1_block h (firstn 64 b)) (skipn 64 b)
  end.

(** Modelled from the spec: the SHA-1 primitive, "byte sequence ->
    20-byte digest" (FIPS 180-4; [SHA1] of tlslite/utils/cryptomath.py
    is not among the sources). *)
Definition SHA1 (x : bytearray) : bytearray :=
  let padded := sha1_pad x in
  let '(h0, h1, h2, h3, h4) :=
    sha1_blocks (List.length padded / 64)
      (0x67452301, 0xEFCDAB89, 0x98BADCFE, 0x10325476, 0xC3D2E1F0)%N
      padded in
  be_bytes 4 h0 ++ be_bytes 4 h1 ++ be_bytes 4 h2 ++ be_bytes 4 h3
    ++ be_bytes 4 h4.

Definition hexdigit (n : N) : ascii :=
  match String.get (N.to_nat n) "0123456789abcdef" with
  | Some c => c
  | None => "0"%char
  end.

(** Modelled from the spec: the hexadecimal text of a digest, two
    lowercase digits a byte ([b2a_hex] of tlslite/utils/compat.py is
    not among the sources). *)
Fixpoint b2a_hex (b : bytearray) : string :=
  match b with
  | [] => EmptyString
  | x :: rest =>
      String (hexdigit (N.shiftr (Byte.to_N x) 4))
        (String (hexdigit (N.land (Byte.to_N x) 0xF)) (b2a_hex rest))
  end.

(** *** PEM armor *)

(** The value of a character of the base64 alphabet. *)
Definition base64_value (c : ascii) : option N :=
  let n := N_of_ascii c in
  if ((65 <=? n) && (n <=? 90))%N then Some (n - 65)%N          (* A-Z *)
  else if ((97 <=? n) && (n <=? 122))%N then Some (n - 71)%N    (* a-z *)
  else if ((48 <=? n) && (n <=? 57))%N then Some (n + 4)%N      (* 0-9 *)
  else if (n =? 43)%N then Some 62%N                            (* + *)
  else if (n =? 47)%N then Some 63%N                            (* / *)
  else None.

(** Base64 decoding, a character at a time: [quad] counts the
    characters of the current group of four, [left] holds the bits not
    yet written, [pads] the [=] seen in a row.  Characters outside the
    alphabet (line breaks) are skipped; a group left incomplete is an
    error. *)
Fixpoint a2b_base64_from (quad : nat) (left : N) (pads : nat)
    (out : bytearray) (s : string) : external_error + bytearray :=
  match s with
  | EmptyString =>
      match quad with O => inr (rev out) | _ => inl ArmorError end
  | String c rest =>
      if Ascii.eqb c "="%char then
        if (2 <=? quad) && (4 <=? quad + S pads) then inr (rev out)
        else a2b_base64_from quad left (S pads) out rest
      else
        match base64_value c with
        | None => a2b_base64_from quad left pads out rest
        | Some v =>
            match quad with
            | 0 => a2b_base64_from 1 v 0 out rest
            | 1 => a2b_base64_from 2 (N.land v 0xF) 0
                     (octet (N.lor (N.shiftl left 2) (N.shiftr v 4)) :: out)
                     rest
            | 2 => a2b_base64_from 3 (N.land v 3) 0
                     (octet (N.lor (N.shiftl left 4) (N.shiftr v 2)) :: out)
                     rest
            | _ => a2b_base64_from 0 0 0
                     (octet (N.lor (N.shiftl left 6) v) :: out) rest
            end
        end
  end.

Definition a2b_base64 (s : string) : external_error + bytearray :=
  a2b_base64_from 0 0 0 [] s.

(** Modelled from the spec: PEM armor stripping, which "returns raw
    bytes or fails if the label/markers are absent or the payload is
    not valid base64" ([dePem] of tlslite/utils/pem.py is not among the
    sources): the payload of the first block between the BEGIN and END
    markers of the label. *)
Definition dePem (s name : string) : external_error + bytearray :=
  let prefix := ("-----BEGIN " ++ name ++ "-----")%string in
  let postfix := ("-----END " ++ name ++ "-----")%string in
  match String.index 0 prefix s with
  | None => inl ArmorError
  | Some start =>
      let from := start + String.length prefix in
      match String.index from postfix s with
      | None => inl ArmorError
      | Some stop => a2b_base64 (String.substring from (stop - from) s)
      end
  end.

(** The collaborators, assembled. *)
#[export] Instance collaborators : Collaborators :=
  @Build_Collaborators
    node ASN1Parser node_value getChild getChildBytes getChildCount
    bytesToNumber
    RSAKey _createPublicRSAKey
    VerifyingKey VerifyingKey_from_string
    dePem
    SHA1 b2a_hex.

End Reference.

(** ** What the decoder finds in a certificate

    The properties below speak of certificates through what the ASN.1
    decoder returns for them. *)

Section Views.

Context {C : Collaborators}.

(** [bytes] decodes to a Certificate whose tbsCertificate is [tbs], the
    first byte of its value being [first]. *)
Definition tbsCertificate_of (bytes : bytearray) (tbs : ASN1Node)
    (first : N) : Prop :=
  exists p b rest,
    ASN1Parser bytes = inr p /\
    getChild p 0 = inr tbs /\
    value tbs = b :: rest /\
    first = Byte.to_N b.

(** ... and the children at the subject's and the key's index are
    [subj] (raw bytes) and [spki] (a node). *)
Definition locates (bytes subj : bytearray) (spki : ASN1Node) : Prop :=
  exists tbs first,
    tbsCertificate_of bytes tbs first /\
    getChildBytes tbs (subjectPublicKeyInfoIndex first - 1) = inr subj /\
    getChild tbs (subjectPublicKeyInfoIndex first) = inr spki.

(** Child 0 of [spki] is the AlgorithmIdentifier [algId], which has
    [count] children, the first of value [oid]. *)
Definition algorithmIdentifier_of (spki algId : ASN1Node) (count : nat)
    (oid : bytearray) : Prop :=
  getChild spki 0 = inr algId /\
  getChildCount algId = inr count /\
  exists alg, getChild algId 0 = inr alg /\ value alg = oid.

(** The parameters of [algId]: it has two children and the second has
    value [v]. *)
Definition parameters_of (algId : ASN1Node) (count : nat)
    (v : bytearray) : Prop :=
  count = 2 /\ exists params, getChild algId 1 = inr params /\
                              value params = v.

(** Child 1 of [spki], the BIT STRING, has value [v]. *)
Definition subjectPublicKey_of (spki : ASN1Node) (v : bytearray) : Prop :=
  exists p, getChild spki 1 = inr p /\ value p = v.

(** The exceptions of the two key extractions. *)
Definition rsa_extraction_error (e : exn) : Prop :=
  e = InvalidBitStringEncoding \/ e = IndexError \/
  exists x, e = Collaborator x.

Definition ec_extraction_error (e : exn) : Prop :=
  e = UnexpectedPublicKeyEncoding \/ exists x, e = Collaborator x.

(** The three values [parseBinary] gives [certAlg]. *)
Definition known_algorithm (alg : string) : Prop :=
  alg = "rsa"%string \/ alg = "rsa-pss"%string \/ alg = "ecdsa"%string.

(** [self] after [certAlg] is assigned. *)
Definition with_alg (self : X509) (alg : string) : X509 :=
  mkX509 (bytes self) (publicKey self) (subject self) (Some alg).

(** The entity once [parseBinary] has stored the input, the subject
    and the algorithm, the key being the one [self] had. *)
Definition staged (self : X509) (bytes subj : bytearray) (alg : string)
    : X509 :=
  mkX509 bytes (publicKey self) (Some subj) (Some alg).

(** The key extraction [parseBinary] hands a certificate to. *)
Inductive KeyKind : Set := Rsa | Ec (curve : Curve).

Definition extraction (kind : KeyKind) (spki : ASN1Node) : M unit :=
  match kind with
  | Rsa => _rsaPubKeyParsing spki
  | Ec curve => _ecdsaPubKeyParsing spki curve
  end.

(** [spki] passes algorithm resolution as [alg], for the extraction
    [kind]: the rows of the resolution and curve tables. *)
Inductive resolves (spki : ASN1Node) : string -> KeyKind -> Prop :=
| resolves_rsa algId count oid :
    algorithmIdentifier_of spki algId count oid ->
    list_ oid = [42; 134; 72; 134; 247; 13; 1; 1; 1]%N ->
    parameters_of algId count [] ->
    resolves spki "rsa" Rsa
| resolves_pss algId count oid :
    algorithmIdentifier_of spki algId count oid ->
    list_ oid = [42; 134; 72; 134; 247; 13; 1; 1; 10]%N ->
    resolves spki "rsa-pss" Rsa
| resolves_ecdsa algId count oid curveOid curve :
    algorithmIdentifier_of spki algId count oid ->
    list_ oid = [42; 134; 72; 206; 61; 2; 1]%N ->
    parameters_of algId count curveOid ->
    (list_ curveOid = [42; 134; 72; 206; 61; 3; 1; 7]%N /\ curve = NIST256p
     \/ list_ curveOid = [43; 129; 4; 0; 34]%N /\ curve = NIST384p
     \/ list_ curveOid = [43; 129; 4; 0; 35]%N /\ curve = NIST521p) ->
    resolves spki "ecdsa" (Ec curve).

(** The error each extraction raises for a BIT STRING it refuses. *)
Definition refusal (kind : KeyKind) : exn :=
  match kind with
  | Rsa => InvalidBitStringEncoding
  | Ec _ => UnexpectedPublicKeyEncoding
  end.

(** The key a successful parse stores fits the algorithm it stores. *)
Definition key_matches (alg : string) (k : PublicKey) : Prop :=
  (alg = "rsa"%string \/ alg = "rsa-pss"%string) /\
  (exists r, k = RsaPublicKey r)
  \/ alg = "ecdsa"%string /\ (exists v, k = EcPublicKey v).

(** The BIT STRING of [spki] holds an RSAPublicKey: its value starts
    with a zero byte, what follows decodes to a node whose children 0
    and 1 have the values of the numbers [n] and [e]. *)
Definition rsaPublicKey_of (spki : ASN1Node) (n e : N) : Prop :=
  exists p b rest key modulusP publicExponentP,
    getChild spki 1 = inr p /\
    value p = b :: rest /\
    Byte.to_N b = 0%N /\
    ASN1Parser rest = inr key /\
    getChild key 0 = inr modulusP /\
    getChild key 1 = inr publicExponentP /\
    n = bytesToNumber (value modulusP) /\
    e = bytesToNumber (value publicExponentP).

(** The BIT STRING of [spki] holds an uncompressed point: its value
    is 0x00, 0x04 and then the string [s]. *)
Definition ecPoint_of (spki : ASN1Node) (s : bytearray) : Prop :=
  exists p,
    getChild spki 1 = inr p /\
    firstn 2 (value p) = octets [0; 4]%N /\
    s = skipn 2 (value p).

(** The exceptions [parseBinary] can end with. *)
Definition parse_error (e : exn) : Prop :=
  (exists x, e = Collaborator x) \/ e = IndexError \/
  e = UnrecognizedAlgorithm \/ e = MissingParameters \/
  e = NonNullParameters \/ e = UnknownCurve \/
  e = InvalidBitStringEncoding \/ e = UnexpectedPublicKeyEncoding.

End Views.

(** ** Object identifiers

    The specification names algorithms and curves by their arcs, the
    code by the content octets of their DER encoding. *)

(** Modelled from the spec: the DER content octets of an OID given as
    "its decoded integer-arc sequence" (X.690, 8.19): the first two
    arcs share one subidentifier, every subidentifier is written in
    base 128, most significant group first, with bit 8 set on all but
    the last octet. *)
Fixpoint base128 (fuel : nat) (n : N) (last : bool) : list N :=
  let low := (N.land n 0x7F + (if last then 0 else 0x80))%N in
  match fuel with
  | O => [low]
  | S fuel' =>
      if (n <? 128)%N then [low]
      else base128 fuel' (N.shiftr n 7) false ++ [low]
  end.

Definition subidentifier (n : N) : list N :=
  base128 (N.to_nat (N.size n)) n true.

Definition oid_octets (arcs : list N) : list N :=
  match arcs with
  | a :: b :: rest =>
      subidentifier (40 * a + b) ++ flat_map subidentifier rest
  | _ => []
  end.

(** Modelled from the spec: the resolution table of section 4.2, the
    OIDs by their arcs and the algorithms (RSA_PKCS1, RSA_PSS, ECDSA) by
    the names [certAlg] takes for them. *)
Definition algorithm_table : list (list N * string) :=
  [([1; 2; 840; 113549; 1; 1; 1]%N, "rsa"%string);
   ([1; 2; 840; 113549; 1; 1; 10]%N, "rsa-pss"%string);
   ([1; 2; 840; 10045; 2; 1]%N, "ecdsa"%string)].

(** Modelled from the spec: the curve table of section 4.2,
    "1.2.840.10045.3.1.7 -> P256, 1.3.132.0.34 -> P384,
    1.3.132.0.35 -> P521". *)
Definition curve_table : list (list N * Curve) :=
  [([1; 2; 840; 10045; 3; 1; 7]%N, NIST256p);
   ([1; 3; 132; 0; 34]%N, NIST384p);
   ([1; 3; 132; 0; 35]%N, NIST521p)].

(** The row of a table whose OID has the given content octets. *)
Definition lookup_oid {A} (table : list (list N * A)) (content : list N)
    : option A :=
  match find (fun row => list_eqb (oid_octets (fst row)) content) table with
  | Some row => Some (snd row)
  | None => None
  end.

(** A character of lowercase hexadecimal text. *)
Definition lowercase_hex (c : ascii) : bool :=
  match String.index 0 (String c EmptyString) "0123456789abcdef" with
  | Some _ => true
  | None => false
  end.

Fixpoint all_chars (p : ascii -> bool) (s : string) : bool :=
  match s with
  | EmptyString => true
  | String c rest => p c && all_chars p rest
  end.

(** ** Sample certificates

    DER-encoded inputs for the reference collaborators: the smallest
    structures [parseBinary] reads, in the layout of a Certificate. *)

Module Samples.

Import Reference.

(** One element: tag, DER length, content. *)
Definition der_length (n : nat) : bytearray :=
  if n <? 128 then [octet (N.of_nat n)]
  else if n <? 256 then [octet 0x81; octet (N.of_nat n)]
  else [octet 0x82; octet (N.of_nat (n / 256)); octet (N.of_nat (n mod 256))].

Definition tlv (tag : N) (content : bytearray) : bytearray :=
  octet tag :: der_length (List.length content) ++ content.

(** The node the decoder builds for an element of the given content. *)
Definition node_of (content : bytearray) : node :=
  mkNode (List.length content) content.

(** AlgorithmIdentifier contents. *)
Definition oid_rsa : bytearray :=
  octets [42; 134; 72; 134; 247; 13; 1; 1; 1]%N.
Definition oid_pss : bytearray :=
  octets [42; 134; 72; 134; 247; 13; 1; 1; 10]%N.
Definition oid_ecPublicKey : bytearray :=
  octets [42; 134; 72; 206; 61; 2; 1]%N.
Definition oid_prime256v1 : bytearray :=
  octets [42; 134; 72; 206; 61; 3; 1; 7]%N.
Definition oid_secp256k1 : bytearray := octets [43; 129; 4; 0; 10]%N.
Definition oid_dsa : bytearray := octets [42; 134; 72; 206; 56; 4; 1]%N.

Definition algId_rsa : bytearray := tlv 6 oid_rsa ++ tlv 5 [].
Definition algId_rsa_no_params : bytearray := tlv 6 oid_rsa.
Definition algId_rsa_params : bytearray :=
  tlv 6 oid_rsa ++ tlv 4 (octets [1]%N).
(** RSASSA-PSS with parameters (a hash AlgorithmIdentifier). *)
Definition algId_pss : bytearray :=
  tlv 6 oid_pss
    ++ tlv 0x30 (tlv 0xA0 (tlv 0x30 (tlv 6 (octets [96; 134; 72; 1; 101;
                                                    3; 4; 2; 1]%N)))).
Definition algId_p256 : bytearray :=
  tlv 6 oid_ecPublicKey ++ tlv 6 oid_prime256v1.
Definition algId_secp256k1 : bytearray :=
  tlv 6 oid_ecPublicKey ++ tlv 6 oid_secp256k1.
Definition algId_dsa : bytearray := tlv 6 oid_dsa ++ tlv 5 [].

(** BIT STRING contents. *)
Definition rsa_modulus : bytearray := octets [0; 197; 59; 113]%N.
Definition rsa_exponent : bytearray := octets [1; 0; 1]%N.
Definition RSAPublicKey : bytearray :=
  tlv 0x30 (tlv 2 rsa_modulus ++ tlv 2 rsa_exponent).
Definition key_rsa : bytearray := x00 :: RSAPublicKey.
Definition key_rsa_unused_bits : bytearray := octet 7 :: RSAPublicKey.

(** The base point of P-256. *)
Definition Gx : N :=
  0x6b17d1f2e12c4247f8bce6e563a440f277037d812deb33a0f4a13945d898c296.
Definition Gy : N :=
  0x4fe342e2fe1a7f9b8ee7eb4a7c0f9e162bce33576b315ececbb6406837bf51f5.
Definition point : bytearray := be_bytes 32 Gx ++ be_bytes 32 Gy.
Definition key_ec : bytearray := octets [0; 4]%N ++ point.
Definition key_ec_unused_bits : bytearray := octets [1; 4]%N ++ point.
Definition key_ec_compressed : bytearray :=
  octets [0; 3]%N ++ be_bytes 32 Gx.

(** subjectPublicKeyInfo, by its two children's contents. *)
Definition spki_content (algId key : bytearray) : bytearray :=
  tlv 0x30 algId ++ tlv 3 key.

(** The Name "CN=a". *)
Definition name_content : bytearray :=
  tlv 0x31 (tlv 0x30 (tlv 6 (octets [85; 4; 3]%N)
                        ++ tlv 12 (octets [97]%N))).
Definition name : bytearray := tlv 0x30 name_content.

(** tbsCertificate with or without the version field, and the
    Certificate around it. *)
Definition tbs_content (version : bool) (spki : bytearray) : bytearray :=
  (if version then tlv 0xA0 (tlv 2 (octets [2]%N)) else [])
    ++ tlv 2 (octets [1]%N)          (* serialNumber *)
    ++ tlv 0x30 algId_rsa            (* signature *)
    ++ tlv 0x30 []                   (* issuer *)
    ++ tlv 0x30 []                   (* validity *)
    ++ name                          (* subject *)
    ++ tlv 0x30 spki.                (* subjectPublicKeyInfo *)

Definition certificate_content (version : bool) (spki : bytearray)
    : bytearray :=
  tlv 0x30 (tbs_content version spki)
    ++ tlv 0x30 algId_rsa
    ++ tlv 3 (octets [0; 0]%N).

Definition certificate (version : bool) (spki : bytearray) : bytearray :=
  tlv 0x30 (certificate_content version spki).

Definition cert_rsa := certificate true (spki_content algId_rsa key_rsa).
Definition cert_rsa_v1 := certificate false (spki_content algId_rsa key_rsa).
Definition cert_pss := certificate true (spki_content algId_pss key_rsa).
Definition cert_ec := certificate true (spki_content algId_p256 key_ec).
Definition cert_dsa := certificate true (spki_content algId_dsa key_rsa).
Definition cert_rsa_no_params :=
  certificate true (spki_content algId_rsa_no_params key_rsa).
Definition cert_rsa_params :=
  certificate true (spki_content algId_rsa_params key_rsa).
Definition cert_rsa_unused_bits :=
  certificate true (spki_content algId_rsa key_rsa_unused_bits).
Definition cert_ec_unused_bits :=
  certificate true (spki_content algId_p256 key_ec_unused_bits).
Definition cert_ec_compressed :=
  certificate true (spki_content algId_p256 key_ec_compressed).
Definition cert_secp256k1 :=
  certificate true (spki_content algId_secp256k1 key_ec).

(** The keys the two valid public keys decode to. *)
Definition the_rsa_key : RSAKey := mkRSAKey 12925809 65537.
Definition the_ec_key : VerifyingKey := mkVerifyingKey NIST256p Gx Gy.

(** "MA==" is the base64 text of the single byte 0x30, a truncated
    certificate. *)
Definition pem_truncated : string :=
  "-----BEGIN CERTIFICATE-----MA==-----END CERTIFICATE-----".

(** [cert_rsa] in PEM armor, after a line that is not part of it. *)
Definition pem_rsa : string :=
  "subject=CN = a
-----BEGIN CERTIFICATE-----
MF8wSqADAgECAgEBMA0GCSqGSIb3DQEBAQUAMAAwADAMMQowCAYDVQQDDAFhMB8w
DQYJKoZIhvcNAQEBBQADDgAwCwIEAMU7cQIDAQABMA0GCSqGSIb3DQEBAQUAAwIA
AA==
-----END CERTIFICATE-----
".

(** The bytes of an ASCII text. *)
Definition ascii_bytes (s : string) : bytearray :=
  map byte_of_ascii (list_ascii_of_string s).

(** Malformed inputs. *)
Definition cert_empty_tbs : bytearray := tlv 0x30 (tlv 0x30 []).
Definition cert_rsa_empty_key :=
  certificate true (spki_content algId_rsa []).
Definition cert_ec_empty_key :=
  certificate true (spki_content algId_p256 []).
Definition algId_ec_no_params : bytearray := tlv 6 oid_ecPublicKey.
Definition cert_ec_no_params :=
  certificate true (spki_content algId_ec_no_params key_ec).
Definition key_ec_off_curve : bytearray :=
  octets [0; 4]%N ++ be_bytes 32 Gx ++ be_bytes 32 (Gy + 1).
Definition cert_ec_off_curve :=
  certificate true (spki_content algId_p256 key_ec_off_curve).
Definition cert_short_tbs : bytearray :=
  tlv 0x30 (tlv 0x30 (tlv 2 (octets [1]%N))).

Definition cert_rsa_trailing : bytearray :=
  cert_rsa ++ octets [0; 1; 2]%N.

End Samples.

(** * Properties *)

(** ** Running the methods *)

Section Running.

Context {C : Collaborators}.
Local Open Scope x509_scope.

Lemma list_eqb_eq (a b : list N) : list_eqb a b = true <-> a = b.
Proof.
  unfold list_eqb. destruct (list_eq_dec N.eq_dec a b); split;
    intros; congruence.
Qed.

Lemma list_eqb_neq (a b : list N) : a <> b -> list_eqb a b = false.
Proof.
  unfold list_eqb. destruct (list_eq_dec N.eq_dec a b); congruence.
Qed.

Lemma bytes_eqb_eq (a b : bytearray) : bytes_eqb a b = true <-> a = b.
Proof.
  unfold bytes_eqb. destruct (list_eq_dec Byte.byte_eq_dec a b); split;
    intros; congruence.
Qed.

Lemma bytes_eqb_neq (a b : bytearray) : bytes_eqb a b = false <-> a <> b.
Proof.
  unfold bytes_eqb. destruct (list_eq_dec Byte.byte_eq_dec a b); split;
    intros; congruence.
Qed.

Lemma bind_call_inr A B (r : external_error + A) (a : A) (k : A -> M B)
    (self : X509) :
  r = inr a -> bind (call r) k self = k a self.
Proof. intros ->. reflexivity. Qed.

Lemma bind_call_inl A B (r : external_error + A) (e : external_error)
    (k : A -> M B) (self : X509) :
  r = inl e -> bind (call r) k self = (self, inl (Collaborator e)).
Proof. intros ->. reflexivity. Qed.

Lemma bind_item0_cons B (b : byte) (rest : bytearray) (v : bytearray)
    (k : N -> M B) (self : X509) :
  v = b :: rest -> bind (item0 v) k self = k (Byte.to_N b) self.
Proof. intros ->. reflexivity. Qed.

End Running.

(** Unfold the monad and split on every test and collaborator call. *)
Ltac unfold_run :=
  cbv beta iota zeta delta [bind call ret raise item0 set_bytes
                            set_publicKey set_subject set_certAlg
                            get_certAlg] in *;
  cbn [bytes publicKey subject certAlg] in *.

Ltac split_run :=
  repeat match goal with
         | |- context [match ?x with _ => _ end] =>
             destruct x eqn:?; simpl in *
         | H : (_, _) = (_, _) |- _ => inversion H; subst; clear H
         end.

(** ** What each method leaves behind *)

Section Outcomes.

Context {C : Collaborators}.
Local Open Scope x509_scope.

(** [_rsaPubKeyParsing] either raises and leaves [self] as it was, or
    stores an RSA key and touches nothing else. *)
Lemma _rsaPubKeyParsing_outcome (spki : ASN1Node) (self : X509) :
  (exists e, rsa_extraction_error e /\
             _rsaPubKeyParsing spki self = (self, inl e)) \/
  (exists k, _rsaPubKeyParsing spki self =
             (mkX509 (bytes self) (Some (RsaPublicKey k)) (subject self)
                     (certAlg self), inr tt)).
Proof.
  unfold _rsaPubKeyParsing, rsa_extraction_error, InvalidBitStringEncoding.
  unfold_run.
  destruct (getChild spki 1) as [e|p]; [left; eauto 6|].
  destruct (value p) as [|b rest]; [left; eauto 6|].
  destruct (Byte.to_N b =? 0)%N; cbn [negb]; [|left; eauto 6].
  destruct (ASN1Parser _) as [e|q]; [left; eauto 6|].
  destruct (getChild q 0) as [e|m]; [left; eauto 6|].
  destruct (getChild q 1) as [e|x]; [left; eauto 6|].
  destruct (_createPublicRSAKey _ _) as [e|k]; [left; eauto 6|].
  right. eauto.
Qed.

(** [_ecdsaPubKeyParsing] likewise, with an EC key built for
    [curve]. *)
Lemma _ecdsaPubKeyParsing_outcome (spki : ASN1Node) (curve : Curve)
    (self : X509) :
  (exists e, ec_extraction_error e /\
             _ecdsaPubKeyParsing spki curve self = (self, inl e)) \/
  (exists p k, getChild spki 1 = inr p /\
               firstn 2 (value p) = octets [0; 4]%N /\
               VerifyingKey_from_string (skipn 2 (value p)) curve = inr k /\
               _ecdsaPubKeyParsing spki curve self =
               (mkX509 (bytes self) (Some (EcPublicKey k)) (subject self)
                       (certAlg self), inr tt)).
Proof.
  unfold _ecdsaPubKeyParsing, ec_extraction_error,
    UnexpectedPublicKeyEncoding.
  unfold_run.
  destruct (getChild spki 1) as [e|p]; [left; eauto 6|].
  destruct (bytes_eqb (firstn 2 (value p)) (octets [0; 4]%N)) eqn:E;
    cbn [negb]; [|left; eauto 6].
  apply bytes_eqb_eq in E.
  destruct (VerifyingKey_from_string _ _) as [e|k] eqn:K; [left; eauto 6|].
  right. exists p, k. auto.
Qed.

Lemma extraction_outcome (kind : KeyKind) (spki : ASN1Node) (self : X509) :
  (exists e, extraction kind spki self = (self, inl e)) \/
  (exists k, extraction kind spki self =
             (mkX509 (bytes self) (Some k) (subject self) (certAlg self),
              inr tt)).
Proof.
  destruct kind as [|curve]; simpl.
  - destruct (_rsaPubKeyParsing_outcome spki self) as [(e & _ & H)|(k & H)];
      rewrite H; eauto.
  - destruct (_ecdsaPubKeyParsing_outcome spki curve self)
      as [(e & _ & H)|(p & k & _ & _ & _ & H)]; rewrite H; eauto.
Qed.

End Outcomes.

(** Evaluate the tests whose operands are known. *)
Ltac eval_test t :=
  let v := eval vm_compute in t in
  match v with
  | true => change t with true
  | false => change t with false
  end.

Ltac tests :=
  repeat match goal with
         | |- context [list_eqb ?a ?b] => eval_test (list_eqb a b)
         | |- context [certAlg_is ?a ?b] => eval_test (certAlg_is a b)
         | |- context [Nat.eqb ?a ?b] => eval_test (Nat.eqb a b)
         | |- context [bytes_eqb ?a ?b] => eval_test (bytes_eqb a b)
         end;
  cbn [negb]; cbv beta iota.

(** Follow a collaborator call whose result is known. *)
Ltac follow H := rewrite H; cbv beta iota.

(** ** From the input to the key extraction *)

Section Resolution.

Context {C : Collaborators}.
Local Open Scope x509_scope.

(** Lines 61-80: the input is stored, then the subject; the rest of
    the parse works on the subjectPublicKeyInfo found. *)
Lemma parseBinary_locates (bytes subj : bytearray) (spki : ASN1Node)
    (self : X509) :
  locates bytes subj spki ->
  parseBinary bytes self =
  parseBinary_subjectPublicKeyInfo spki
    (mkX509 bytes (publicKey self) (Some subj) (certAlg self)).
Proof.
  intros (tbs & first & (p & b & rest & Hp & Htbs & Hv & ->) & Hs & Hk).
  unfold parseBinary. unfold_run.
  follow Hp. follow Htbs. follow Hv. follow Hs. follow Hk.
  reflexivity.
Qed.

(** Lines 82-122: a subjectPublicKeyInfo that passes a row of the
    resolution table has its algorithm stored and goes to the row's key
    extraction. *)
Lemma parseBinary_subjectPublicKeyInfo_resolved (spki : ASN1Node)
    (alg : string) (kind : KeyKind) (self : X509) :
  resolves spki alg kind ->
  parseBinary_subjectPublicKeyInfo spki self =
  extraction kind spki
    (mkX509 (bytes self) (publicKey self) (subject self) (Some alg)).
Proof.
  intros R. unfold parseBinary_subjectPublicKeyInfo. unfold_run.
  destruct R as
    [algId count oid (Ha & Hn & a & Ha0 & Hv) Hoid (-> & ps & Hps & Hpv)
    |algId count oid (Ha & Hn & a & Ha0 & Hv) Hoid
    |algId count oid curveOid curve (Ha & Hn & a & Ha0 & Hv) Hoid
       (-> & ps & Hps & Hpv) Hcurve];
    follow Ha; follow Hn; follow Ha0; rewrite Hv, Hoid; tests.
  - follow Hps. rewrite Hpv. tests. reflexivity.
  - reflexivity.
  - follow Hps. rewrite Hpv.
    destruct Hcurve as [(-> & ->)|[(-> & ->)|(-> & ->)]]; tests;
      reflexivity.
Qed.

Lemma parseBinary_resolved (bytes subj : bytearray) (spki : ASN1Node)
    (alg : string) (kind : KeyKind) (self : X509) :
  locates bytes subj spki ->
  resolves spki alg kind ->
  parseBinary bytes self =
  extraction kind spki (staged self bytes subj alg).
Proof.
  intros L R. rewrite (parseBinary_locates self L).
  rewrite (parseBinary_subjectPublicKeyInfo_resolved _ R). reflexivity.
Qed.

End Resolution.

(** ** Every way a parse can end *)

Section Ends.

Context {C : Collaborators}.
Local Open Scope x509_scope.

Ltac known := unfold known_algorithm; auto.
Ltac stops_before_alg := left; eexists; reflexivity.
Ltac stops_after_alg :=
  right; left; do 2 eexists; (split; [|reflexivity]); known.

(** A key extraction started with the algorithm stored. *)
Lemma extraction_ends (kind : KeyKind) (spki : ASN1Node) (self : X509)
    (alg : string) :
  let st := mkX509 (bytes self) (publicKey self) (subject self) (Some alg) in
  (exists e, extraction kind spki st = (st, inl e)) \/
  (exists k, extraction kind spki st =
             (mkX509 (bytes self) (Some k) (subject self) (Some alg),
              inr tt)).
Proof.
  intros st. destruct (extraction_outcome kind spki st) as [H|H]; auto.
Qed.

Ltac extracts kind alg :=
  match goal with
  | self : X509, spki : ASN1Node |- _ =>
      destruct (extraction_ends kind spki self alg) as [(e & H)|(k & H)];
      cbn [extraction] in H; rewrite H; right; [left|right];
      do 2 eexists; (split; [|reflexivity]); known
  end.

(** Lines 82-122 end in one of three ways: an exception before the
    algorithm is stored, an exception after it, or success with the
    algorithm and a key stored.  [bytes] and [subject] are not
    written. *)
Lemma parseBinary_subjectPublicKeyInfo_ends (spki : ASN1Node)
    (self : X509) :
  let r := parseBinary_subjectPublicKeyInfo spki self in
  (exists e, r = (self, inl e)) \/
  (exists alg e,
     known_algorithm alg /\
     r = (mkX509 (bytes self) (publicKey self) (subject self) (Some alg),
          inl e)) \/
  (exists alg k,
     known_algorithm alg /\
     r = (mkX509 (bytes self) (Some k) (subject self) (Some alg), inr tt)).
Proof.
  cbv zeta. unfold parseBinary_subjectPublicKeyInfo. unfold_run.
  destruct (getChild spki 0) as [e|algId]; [stops_before_alg|].
  destruct (getChildCount algId) as [e|count]; [stops_before_alg|].
  destruct (getChild algId 0) as [e|alg]; [stops_before_alg|].
  destruct (list_eqb (list_ (value alg)) _);
    [|destruct (list_eqb (list_ (value alg)) _);
      [|destruct (list_eqb (list_ (value alg)) _);
        [|stops_before_alg]]];
    tests.
  - (* rsa *)
    destruct (count =? 2); cbn [negb]; cbv iota; [|stops_after_alg].
    destruct (getChild algId 1) as [e|params]; [stops_after_alg|].
    destruct (bytes_eqb (value params) []); cbn [negb]; cbv iota;
      [|stops_after_alg].
    extracts Rsa "rsa"%string.
  - (* rsa-pss *)
    extracts Rsa "rsa-pss"%string.
  - (* ecdsa *)
    destruct (count =? 2); cbn [negb]; cbv iota; [|stops_after_alg].
    destruct (getChild algId 1) as [e|curveId]; [stops_after_alg|].
    destruct (list_eqb (list_ (value curveId)) _);
      [extracts (Ec NIST256p) "ecdsa"%string|].
    destruct (list_eqb (list_ (value curveId)) _);
      [extracts (Ec NIST384p) "ecdsa"%string|].
    destruct (list_eqb (list_ (value curveId)) _);
      [extracts (Ec NIST521p) "ecdsa"%string|].
    stops_after_alg.
Qed.

(** [parseBinary] stores the input first; it then ends before the
    subject is stored, or as lines 82-122 end. *)
Lemma parseBinary_ends (input : bytearray) (self : X509) :
  let r := parseBinary input self in
  let pk := publicKey self in
  (exists e, r = (mkX509 input pk (subject self) (certAlg self), inl e)) \/
  (exists subj e, r = (mkX509 input pk (Some subj) (certAlg self), inl e)) \/
  (exists subj alg e,
     known_algorithm alg /\
     r = (mkX509 input pk (Some subj) (Some alg), inl e)) \/
  (exists subj alg k,
     known_algorithm alg /\
     r = (mkX509 input (Some k) (Some subj) (Some alg), inr tt)).
Proof.
  cbv zeta. unfold parseBinary. unfold_run.
  destruct (ASN1Parser input) as [e|p]; [left; eauto|].
  destruct (getChild p 0) as [e|tbs]; [left; eauto|].
  destruct (value tbs) as [|b rest]; [left; eauto|].
  destruct (getChildBytes tbs _) as [e|subj]; [left; eauto|].
  right.
  destruct (getChild tbs _) as [e|spki]; [left; eauto|].
  cbv beta iota; cbn [bytes publicKey subject certAlg].
  pose proof (parseBinary_subjectPublicKeyInfo_ends spki
                (mkX509 input (publicKey self) (Some subj) (certAlg self)))
    as H.
  cbv zeta in H. cbn [bytes publicKey subject certAlg] in H.
  destruct H as [(e & ->)|[(alg & e & K & ->)|(alg & k & K & ->)]];
    [left|right; left|right; right]; eauto 7.
Qed.

(** [parse]: armor stripping, then [parseBinary]; [self] is returned. *)
Lemma parse_run (s : string) (self : X509) :
  parse s self =
  match dePem s "CERTIFICATE" with
  | inl x => (self, inl (Collaborator x))
  | inr input =>
      match parseBinary input self with
      | (self', inl e) => (self', inl e)
      | (self', inr _) => (self', inr self')
      end
  end.
Proof.
  unfold parse. unfold_run.
  destruct (dePem s "CERTIFICATE") as [x|input]; [reflexivity|].
  destruct (parseBinary input self) as [self' [e|[]]]; reflexivity.
Qed.

(** Whatever the outcome, [bytes] holds the input afterwards. *)
Lemma parseBinary_bytes (input : bytearray) (self : X509) :
  bytes (fst (parseBinary input self)) = input.
Proof.
  destruct (parseBinary_ends input self)
    as [(e & H)|[(subj & e & H)|[(subj & alg & e & _ & H)
       |(subj & alg & k & _ & H)]]];
    rewrite H; reflexivity.
Qed.

End Ends.

(** ** The reference ASN.1 decoder *)

Lemma get_rest (len : N) (buf rest : bytearray) (x : N) :
  Reference.get len buf = inr (x, rest) ->
  rest = skipn (N.to_nat len) buf /\ N.to_nat len <= List.length buf.
Proof.
  unfold Reference.get.
  destruct (N.ltb_spec (N.of_nat (List.length buf)) len) as [|Hle];
    [discriminate|].
  intros [= _ <-]. split; [reflexivity|lia].
Qed.

Lemma getFixBytes_rest (len : N) (buf v rest : bytearray) :
  Reference.getFixBytes len buf = inr (v, rest) ->
  rest = skipn (N.to_nat len) buf.
Proof.
  unfold Reference.getFixBytes.
  destruct (N.of_nat (List.length buf) <? len)%N; [discriminate|].
  intros [= _ <-]. reflexivity.
Qed.

(** An element takes at least its tag byte. *)
Lemma element_shrinks (buf v rest : bytearray) :
  Reference.element buf = inr (v, rest) ->
  List.length rest < List.length buf.
Proof.
  unfold Reference.element, Reference._getASN1Length.
  destruct (Reference.get 1 buf) as [e|[t r1]] eqn:G1; [discriminate|].
  apply get_rest in G1. destruct G1 as (-> & L1).
  destruct (Reference.get 1 (skipn _ buf)) as [e|[n r2]] eqn:G2;
    [discriminate|].
  apply get_rest in G2. destruct G2 as (-> & L2).
  rewrite length_skipn in L2.
  destruct (n <=? 127)%N.
  - intros F. apply getFixBytes_rest in F. subst rest.
    rewrite !length_skipn. change (N.to_nat 1) with 1 in *. lia.
  - destruct (Reference.get _ _) as [e|[m r3]] eqn:G3; [discriminate|].
    apply get_rest in G3. destruct G3 as (-> & L3).
    intros F. apply getFixBytes_rest in F. subst rest.
    rewrite !length_skipn. change (N.to_nat 1) with 1 in *. lia.
Qed.

(** Fuel of the buffer's length is enough to count its elements: more
    fuel changes nothing. *)
Lemma countChildren_fuel (fuel : nat) (buf : bytearray) :
  List.length buf <= fuel ->
  Reference.countChildren fuel buf =
  Reference.countChildren (List.length buf) buf.
Proof.
  assert (G : forall f1 f2 b,
             List.length b <= f1 -> List.length b <= f2 ->
             Reference.countChildren f1 b = Reference.countChildren f2 b).
  { induction f1 as [|f1 IH]; intros f2 b L1 L2.
    - destruct b; [destruct f2; reflexivity|cbn in L1; lia].
    - destruct b as [|x b]; [destruct f2; reflexivity|].
      destruct f2 as [|f2]; [cbn in L2; lia|].
      cbn [Reference.countChildren].
      destruct (Reference.element (x :: b)) as [e|[v rest]] eqn:E;
        [reflexivity|].
      apply element_shrinks in E.
      rewrite (IH f2 rest); [reflexivity|lia|lia]. }
  intros L. apply G; [exact L|lia].
Qed.

Lemma octet_to_N (n : N) : (n < 256)%N -> Byte.to_N (octet n) = n.
Proof.
  intros H. unfold octet. destruct (Byte.of_N n) as [b|] eqn:E.
  - apply Byte.to_of_N. exact E.
  - apply Byte.of_N_None_iff in E. lia.
Qed.

Lemma lor_shiftl_8 (a b : N) :
  (b < 256)%N -> N.lor (N.shiftl a 8) b = (a * 256 + b)%N.
Proof.
  intros H.
  assert (L : N.land (N.shiftl a 8) b = 0%N).
  { apply N.bits_inj. intros m. rewrite N.land_spec, N.bits_0.
    destruct (N.lt_ge_cases m 8) as [Hm|Hm].
    - rewrite N.shiftl_spec_low by exact Hm. reflexivity.
    - destruct (N.eq_dec b 0) as [->|Hb];
        [rewrite N.bits_0; apply andb_false_r|].
      rewrite (N.bits_above_log2 b m); [apply andb_false_r|].
      apply N.lt_le_trans with 8%N; [|exact Hm].
      apply N.log2_lt_pow2; [lia|exact H]. }
  rewrite <- (N.lxor_lor _ _ L), <- (N.add_nocarry_lxor _ _ L).
  rewrite N.shiftl_mul_pow2. reflexivity.
Qed.

Lemma get1_cons (x : byte) (l : bytearray) :
  Reference.get 1 (x :: l) = inr (Byte.to_N x, l).
Proof.
  unfold Reference.get.
  destruct (N.ltb_spec (N.of_nat (List.length (x :: l))) 1) as [H|_];
    [cbn [List.length] in H; lia|].
  reflexivity.
Qed.

Lemma get2_cons (x y : byte) (l : bytearray) :
  Reference.get 2 (x :: y :: l) =
  inr ((Byte.to_N x * 256 + Byte.to_N y)%N, l).
Proof.
  unfold Reference.get.
  destruct (N.ltb_spec (N.of_nat (List.length (x :: y :: l))) 2) as [H|_];
    [cbn [List.length] in H; lia|].
  change (N.to_nat 2) with 2. cbn [firstn skipn fold_left].
  rewrite lor_shiftl_8 by (pose proof (Byte.to_N_bounded y); lia).
  reflexivity.
Qed.

Lemma getFixBytes_app (v rest : bytearray) :
  Reference.getFixBytes (N.of_nat (List.length v)) (v ++ rest) =
  inr (v, rest).
Proof.
  unfold Reference.getFixBytes.
  destruct (N.ltb_spec (N.of_nat (List.length (v ++ rest)))
              (N.of_nat (List.length v))) as [H|_];
    [rewrite length_app in H; lia|].
  rewrite Nat2N.id, firstn_app, skipn_app, firstn_all, skipn_all,
    Nat.sub_diag.
  cbn [firstn skipn app]. rewrite app_nil_r. reflexivity.
Qed.

(** The decoder reads back what the DER encoding of an element
    wrote. *)
Lemma element_tlv (tag : N) (content rest : bytearray) :
  List.length content < 256 * 256 ->
  Reference.element (Samples.tlv tag content ++ rest) =
  inr (content, rest).
Proof.
  intros H. unfold Samples.tlv, Reference.element.
  rewrite <- app_comm_cons, get1_cons, <- app_assoc.
  unfold Samples.der_length, Reference._getASN1Length.
  set (n := List.length content) in *.
  destruct (Nat.ltb_spec n 128) as [H1|H1];
    [|destruct (Nat.ltb_spec n 256) as [H2|H2]].
  - cbn [app]. rewrite get1_cons, octet_to_N by lia.
    destruct (N.leb_spec (N.of_nat n) 127) as [_|F]; [|lia].
    apply getFixBytes_app.
  - cbn [app]. rewrite get1_cons.
    change (Byte.to_N (octet 129)) with 129%N.
    change (129 <=? 127)%N with false. change (N.land 129 127) with 1%N.
    cbv iota. rewrite get1_cons, octet_to_N by lia.
    apply getFixBytes_app.
  - cbn [app]. rewrite get1_cons.
    change (Byte.to_N (octet 130)) with 130%N.
    change (130 <=? 127)%N with false. change (N.land 130 127) with 2%N.
    cbv iota. rewrite get2_cons.
    assert (D : n / 256 < 256) by (apply Nat.Div0.div_lt_upper_bound; lia).
    assert (M : n mod 256 < 256) by (apply Nat.mod_upper_bound; lia).
    rewrite !octet_to_N by lia.
    replace (N.of_nat (n / 256) * 256 + N.of_nat (n mod 256))%N
      with (N.of_nat n)
      by (rewrite (Nat.div_mod_eq n 256) at 1; lia).
    apply getFixBytes_app.
Qed.

Lemma ASN1Parser_tlv (tag : N) (content : bytearray) :
  List.length content < 256 * 256 ->
  Reference.ASN1Parser (Samples.tlv tag content) =
  inr (Samples.node_of content).
Proof.
  intros H. unfold Reference.ASN1Parser.
  rewrite <- (app_nil_r (Samples.tlv tag content)).
  rewrite (@element_tlv tag content [] H).
  reflexivity.
Qed.

(** Proofs about the samples run the reference collaborators. *)
Ltac by_running := vm_compute; reflexivity.

(** ** The reference collaborators on known values *)

Example SHA1_abc :
  Reference.b2a_hex (Reference.SHA1 (Samples.ascii_bytes "abc")) =
  "a9993e364706816aba3e25717850c26c9cd0d89d"%string.
Proof. by_running. Qed.

(** A message of 56 bytes, padded to two blocks. *)
Example SHA1_two_blocks :
  Reference.b2a_hex
    (Reference.SHA1
       (Samples.ascii_bytes
          "abcdbcdecdefdefgefghfghighijhijkijkljklmklmnlmnomnopnopq")) =
  "84983e441c3bd26ebaae4aa1f95129e5e54670f1"%string.
Proof. by_running. Qed.

Example a2b_base64_groups :
  Reference.a2b_base64 "TWFu" = inr (Samples.ascii_bytes "Man") /\
  Reference.a2b_base64 "TWE=" = inr (Samples.ascii_bytes "Ma") /\
  Reference.a2b_base64 "TQ==" = inr (Samples.ascii_bytes "M") /\
  Reference.a2b_base64 "TQ=" = inl ArmorError /\
  Reference.a2b_base64 "T" = inl ArmorError.
Proof. repeat split; by_running. Qed.

Example dePem_sample :
  Reference.dePem Samples.pem_rsa "CERTIFICATE" = inr Samples.cert_rsa /\
  Reference.dePem Samples.pem_rsa "X509 CRL" = inl ArmorError.
Proof. split; by_running. Qed.

Example bytesToNumber_exponent :
  Reference.bytesToNumber Samples.rsa_exponent = 65537%N.
Proof. by_running. Qed.

(** The base points of the three curves are on them; a point with a
    coordinate changed is not. *)
Example on_curve_base_points :
  Reference.on_curve NIST256p Samples.Gx Samples.Gy = true /\
  Reference.on_curve NIST384p
    0xaa87ca22be8b05378eb1c71ef320ad746e1d3b628ba79b9859f741e082542a385502f25dbf55296c3a545e3872760ab7
    0x3617de4a96262c6f5d9e98bf9292dc29f8f41dbd289a147ce9da3113b5f0b8c00a60b1ce1d7e819d7a431d7c90ea0e5f
  = true /\
  Reference.on_curve NIST521p
    0x00c6858e06b70404e9cd9e3ecb662395b4429c648139053fb521f828af606b4d3dbaa14b5e77efe75928fe1dc127a2ffa8de3348b3c1856a429bf97e7e31c2e5bd66
    0x011839296a789a3bc0045c8a5fb42c7d1bd998f54449579b446817afbd17273e662c97ee72995ef42640c550b9013fad0761353c7086a272c24088be94769fd16650
  = true /\
  Reference.on_curve NIST256p Samples.Gx (Samples.Gy + 1) = false.
Proof. repeat split; by_running. Qed.

(** The constants of the code are the DER encodings of the OIDs the
    specification names. *)
Example oid_constants :
  oid_octets [1; 2; 840; 113549; 1; 1; 1]%N =
    [42; 134; 72; 134; 247; 13; 1; 1; 1]%N /\
  oid_octets [1; 2; 840; 113549; 1; 1; 10]%N =
    [42; 134; 72; 134; 247; 13; 1; 1; 10]%N /\
  oid_octets [1; 2; 840; 10045; 2; 1]%N =
    [42; 134; 72; 206; 61; 2; 1]%N /\
  oid_octets [1; 2; 840; 10045; 3; 1; 7]%N =
    [42; 134; 72; 206; 61; 3; 1; 7]%N /\
  oid_octets [1; 3; 132; 0; 34]%N = [43; 129; 4; 0; 34]%N /\
  oid_octets [1; 3; 132; 0; 35]%N = [43; 129; 4; 0; 35]%N.
Proof. repeat split; reflexivity. Qed.

(** ** The tables of the specification against the constants of the code *)

Lemma algorithm_table_octets (content : list N) :
  lookup_oid algorithm_table content =
  if list_eqb [42; 134; 72; 134; 247; 13; 1; 1; 1]%N content
  then Some "rsa"%string
  else if list_eqb [42; 134; 72; 134; 247; 13; 1; 1; 10]%N content
  then Some "rsa-pss"%string
  else if list_eqb [42; 134; 72; 206; 61; 2; 1]%N content
  then Some "ecdsa"%string
  else None.
Proof.
  unfold lookup_oid, algorithm_table. cbn [find fst snd].
  change (oid_octets [1; 2; 840; 113549; 1; 1; 1]%N)
    with [42; 134; 72; 134; 247; 13; 1; 1; 1]%N.
  change (oid_octets [1; 2; 840; 113549; 1; 1; 10]%N)
    with [42; 134; 72; 134; 247; 13; 1; 1; 10]%N.
  change (oid_octets [1; 2; 840; 10045; 2; 1]%N)
    with [42; 134; 72; 206; 61; 2; 1]%N.
  repeat destruct (list_eqb _ content); reflexivity.
Qed.

Lemma curve_table_octets (content : list N) :
  lookup_oid curve_table content =
  if list_eqb [42; 134; 72; 206; 61; 3; 1; 7]%N content then Some NIST256p
  else if list_eqb [43; 129; 4; 0; 34]%N content then Some NIST384p
  else if list_eqb [43; 129; 4; 0; 35]%N content then Some NIST521p
  else None.
Proof.
  unfold lookup_oid, curve_table. cbn [find fst snd].
  change (oid_octets [1; 2; 840; 10045; 3; 1; 7]%N)
    with [42; 134; 72; 206; 61; 3; 1; 7]%N.
  change (oid_octets [1; 3; 132; 0; 34]%N) with [43; 129; 4; 0; 34]%N.
  change (oid_octets [1; 3; 132; 0; 35]%N) with [43; 129; 4; 0; 35]%N.
  repeat destruct (list_eqb _ content); reflexivity.
Qed.

Lemma list_eqb_sym (a b : list N) : list_eqb a b = list_eqb b a.
Proof.
  unfold list_eqb.
  destruct (list_eq_dec N.eq_dec a b), (list_eq_dec N.eq_dec b a);
    congruence.
Qed.

(** The rows of the algorithm table, read off a content. *)
Lemma algorithm_table_rows (content : list N) :
  match lookup_oid algorithm_table content with
  | Some alg =>
      content = [42; 134; 72; 134; 247; 13; 1; 1; 1]%N /\ alg = "rsa"%string
      \/ content = [42; 134; 72; 134; 247; 13; 1; 1; 10]%N /\
         alg = "rsa-pss"%string
      \/ content = [42; 134; 72; 206; 61; 2; 1]%N /\ alg = "ecdsa"%string
  | None =>
      list_eqb content [42; 134; 72; 134; 247; 13; 1; 1; 1]%N = false /\
      list_eqb content [42; 134; 72; 134; 247; 13; 1; 1; 10]%N = false /\
      list_eqb content [42; 134; 72; 206; 61; 2; 1]%N = false
  end.
Proof.
  rewrite algorithm_table_octets.
  rewrite !(list_eqb_sym _ content).
  destruct (list_eqb content [42; 134; 72; 134; 247; 13; 1; 1; 1]%N) eqn:E1.
  { apply list_eqb_eq in E1. auto. }
  destruct (list_eqb content [42; 134; 72; 134; 247; 13; 1; 1; 10]%N) eqn:E2.
  { apply list_eqb_eq in E2. auto. }
  destruct (list_eqb content [42; 134; 72; 206; 61; 2; 1]%N) eqn:E3.
  { apply list_eqb_eq in E3. auto. }
  auto.
Qed.

Lemma curve_table_rows (content : list N) :
  match lookup_oid curve_table content with
  | Some curve =>
      content = [42; 134; 72; 206; 61; 3; 1; 7]%N /\ curve = NIST256p
      \/ content = [43; 129; 4; 0; 34]%N /\ curve = NIST384p
      \/ content = [43; 129; 4; 0; 35]%N /\ curve = NIST521p
  | None =>
      list_eqb content [42; 134; 72; 206; 61; 3; 1; 7]%N = false /\
      list_eqb content [43; 129; 4; 0; 34]%N = false /\
      list_eqb content [43; 129; 4; 0; 35]%N = false
  end.
Proof.
  rewrite curve_table_octets.
  rewrite !(list_eqb_sym _ content).
  destruct (list_eqb content [42; 134; 72; 206; 61; 3; 1; 7]%N) eqn:E1.
  { apply list_eqb_eq in E1. auto. }
  destruct (list_eqb content [43; 129; 4; 0; 34]%N) eqn:E2.
  { apply list_eqb_eq in E2. auto. }
  destruct (list_eqb content [43; 129; 4; 0; 35]%N) eqn:E3.
  { apply list_eqb_eq in E3. auto. }
  auto.
Qed.

(** ** The rows of the resolution table, as the code runs them *)

Section Rows.

Context {C : Collaborators}.
Local Open Scope x509_scope.

Variables (spki algId : ASN1Node) (count : nat) (oid : bytearray).
Hypothesis Halg : algorithmIdentifier_of spki algId count oid.

Lemma unrecognized_row (self : X509) :
  lookup_oid algorithm_table (list_ oid) = None ->
  parseBinary_subjectPublicKeyInfo spki self =
  (self, inl UnrecognizedAlgorithm).
Proof.
  intros T. pose proof (algorithm_table_rows (list_ oid)) as R.
  rewrite T in R. destruct R as (R1 & R2 & R3).
  destruct Halg as (Ha & Hn & a & Ha0 & Hv).
  unfold parseBinary_subjectPublicKeyInfo. unfold_run.
  follow Ha. follow Hn. follow Ha0. rewrite Hv, R1, R2, R3.
  reflexivity.
Qed.

Lemma rsa_row (self : X509) :
  list_ oid = [42; 134; 72; 134; 247; 13; 1; 1; 1]%N ->
  parseBinary_subjectPublicKeyInfo spki self =
  if negb (count =? 2) then (with_alg self "rsa", inl MissingParameters)
  else
    match getChild algId 1 with
    | inl x => (with_alg self "rsa", inl (Collaborator x))
    | inr params =>
        if negb (bytes_eqb (value params) [])
        then (with_alg self "rsa", inl NonNullParameters)
        else _rsaPubKeyParsing spki (with_alg self "rsa")
    end.
Proof.
  intros Hoid. destruct Halg as (Ha & Hn & a & Ha0 & Hv).
  unfold parseBinary_subjectPublicKeyInfo, with_alg. unfold_run.
  follow Ha. follow Hn. follow Ha0. rewrite Hv, Hoid. tests.
  destruct (count =? 2); cbn [negb]; cbv iota; [|reflexivity].
  destruct (getChild algId 1) as [x|params]; [reflexivity|].
  destruct (bytes_eqb (value params) []); reflexivity.
Qed.

Lemma pss_row (self : X509) :
  list_ oid = [42; 134; 72; 134; 247; 13; 1; 1; 10]%N ->
  parseBinary_subjectPublicKeyInfo spki self =
  _rsaPubKeyParsing spki (with_alg self "rsa-pss").
Proof.
  intros Hoid. destruct Halg as (Ha & Hn & a & Ha0 & Hv).
  unfold parseBinary_subjectPublicKeyInfo, with_alg. unfold_run.
  follow Ha. follow Hn. follow Ha0. rewrite Hv, Hoid. tests.
  reflexivity.
Qed.

Lemma ecdsa_row (self : X509) :
  list_ oid = [42; 134; 72; 206; 61; 2; 1]%N ->
  parseBinary_subjectPublicKeyInfo spki self =
  if negb (count =? 2) then (with_alg self "ecdsa", inl MissingParameters)
  else
    match getChild algId 1 with
    | inl x => (with_alg self "ecdsa", inl (Collaborator x))
    | inr curveId =>
        match lookup_oid curve_table (list_ (value curveId)) with
        | Some curve => _ecdsaPubKeyParsing spki curve (with_alg self "ecdsa")
        | None => (with_alg self "ecdsa", inl UnknownCurve)
        end
    end.
Proof.
  intros Hoid. destruct Halg as (Ha & Hn & a & Ha0 & Hv).
  unfold parseBinary_subjectPublicKeyInfo, with_alg. unfold_run.
  follow Ha. follow Hn. follow Ha0. rewrite Hv, Hoid. tests.
  destruct (count =? 2); cbn [negb]; cbv iota; [|reflexivity].
  destruct (getChild algId 1) as [x|curveId]; [reflexivity|].
  rewrite curve_table_octets.
  rewrite !(list_eqb_sym _ (list_ (value curveId))).
  repeat destruct (list_eqb (list_ (value curveId)) _); reflexivity.
Qed.

End Rows.

(** ** What the key extractions keep *)

Section Frames.

Context {C : Collaborators}.

Lemma _rsaPubKeyParsing_certAlg (spki : ASN1Node) (self : X509) :
  certAlg (fst (_rsaPubKeyParsing spki self)) = certAlg self.
Proof.
  destruct (_rsaPubKeyParsing_outcome spki self) as [(e & _ & H)|(k & H)];
    rewrite H; reflexivity.
Qed.

Lemma _ecdsaPubKeyParsing_certAlg (spki : ASN1Node) (curve : Curve)
    (self : X509) :
  certAlg (fst (_ecdsaPubKeyParsing spki curve self)) = certAlg self.
Proof.
  destruct (_ecdsaPubKeyParsing_outcome spki curve self)
    as [(e & _ & H)|(p & k & _ & _ & _ & H)]; rewrite H; reflexivity.
Qed.

(** An exception of a key extraction is none of the errors of
    algorithm resolution. *)
Lemma _rsaPubKeyParsing_error (spki : ASN1Node) (self self' : X509)
    (e : exn) :
  _rsaPubKeyParsing spki self = (self', inl e) ->
  InvalidAlgorithmParameters e = false.
Proof.
  destruct (_rsaPubKeyParsing_outcome spki self) as [(x & K & H)|(k & H)];
    rewrite H; intros [= <- <-].
  destruct K as [->|[->|(y & ->)]]; reflexivity.
Qed.

End Frames.

Ltac sample_locates version spki_c :=
  exists (Samples.node_of (Samples.tbs_content version spki_c)),
         (Byte.to_N (hd x00 (Samples.tbs_content version spki_c)));
  split;
  [exists (Samples.node_of (Samples.certificate_content version spki_c)),
          (hd x00 (Samples.tbs_content version spki_c)),
          (tl (Samples.tbs_content version spki_c));
   repeat split; by_running
  |split; by_running].

Ltac sample_algorithmIdentifier oid_c :=
  split; [by_running|split; [by_running|]];
  exists (Samples.node_of oid_c); split; by_running.

Ltac sample_parameters v :=
  split; [reflexivity|]; exists (Samples.node_of v); split; by_running.

(** ** What a failed parse has written *)

Section Failures.

Context {C : Collaborators}.
Local Open Scope x509_scope.

(** Lines 82-122 that fail leave the entity as they found it, or with
    certAlg set to the name the resolution table gives for the OID of
    the AlgorithmIdentifier. *)
Lemma parseBinary_subjectPublicKeyInfo_failure (spki : ASN1Node)
    (st self' : X509) (e : exn) :
  parseBinary_subjectPublicKeyInfo spki st = (self', inl e) ->
  self' = st \/
  exists algId count oid alg,
    algorithmIdentifier_of spki algId count oid /\
    lookup_oid algorithm_table (list_ oid) = Some alg /\
    known_algorithm alg /\
    self' = with_alg st alg.
Proof.
  intros H.
  destruct (getChild spki 0) as [x|algId] eqn:Ha.
  { left. revert H. unfold parseBinary_subjectPublicKeyInfo. unfold_run.
    rewrite Ha. intros [= <- _]. reflexivity. }
  destruct (getChildCount algId) as [x|count] eqn:Hn.
  { left. revert H. unfold parseBinary_subjectPublicKeyInfo. unfold_run.
    rewrite Ha. cbv beta iota. rewrite Hn. intros [= <- _]. reflexivity. }
  destruct (getChild algId 0) as [x|alg] eqn:Ha0.
  { left. revert H. unfold parseBinary_subjectPublicKeyInfo. unfold_run.
    rewrite Ha. cbv beta iota. rewrite Hn. cbv beta iota. rewrite Ha0.
    intros [= <- _]. reflexivity. }
  assert (A : algorithmIdentifier_of spki algId count (value alg)).
  { split; [exact Ha|split; [exact Hn|]]. exists alg. auto. }
  pose proof (algorithm_table_rows (list_ (value alg))) as R.
  destruct (lookup_oid algorithm_table (list_ (value alg)))
    as [name|] eqn:T.
  - right. exists algId, count, (value alg), name.
    split; [exact A|split; [exact T|]].
    destruct R as [(Ho & ->)|[(Ho & ->)|(Ho & ->)]];
      (split; [unfold known_algorithm; auto|]).
    + rewrite (rsa_row A st Ho) in H.
      destruct (negb (count =? 2)); [injection H as <- _; reflexivity|].
      destruct (getChild algId 1) as [x|params];
        [injection H as <- _; reflexivity|].
      destruct (negb (bytes_eqb (value params) []));
        [injection H as <- _; reflexivity|].
      destruct (_rsaPubKeyParsing_outcome spki (with_alg st "rsa"))
        as [(x & _ & E)|(k & E)]; rewrite E in H; [|discriminate].
      injection H as <- _. reflexivity.
    + rewrite (pss_row A st Ho) in H.
      destruct (_rsaPubKeyParsing_outcome spki (with_alg st "rsa-pss"))
        as [(x & _ & E)|(k & E)]; rewrite E in H; [|discriminate].
      injection H as <- _. reflexivity.
    + rewrite (ecdsa_row A st Ho) in H.
      destruct (negb (count =? 2)); [injection H as <- _; reflexivity|].
      destruct (getChild algId 1) as [x|curveId];
        [injection H as <- _; reflexivity|].
      destruct (lookup_oid curve_table _) as [curve|];
        [|injection H as <- _; reflexivity].
      destruct (_ecdsaPubKeyParsing_outcome spki curve
                  (with_alg st "ecdsa"))
        as [(x & _ & E)|(p & k & _ & _ & _ & E)];
        rewrite E in H; [|discriminate].
      injection H as <- _. reflexivity.
  - left. rewrite (unrecognized_row A st T) in H.
    injection H as <- _. reflexivity.
Qed.

(** A failed [parseBinary]: the input is stored; the subject, when
    written, is the child of tbsCertificate at the subject's index; the
    algorithm, when written, is the table's name for the OID found. *)
Lemma parseBinary_failure (input : bytearray) (self self' : X509)
    (e : exn) :
  parseBinary input self = (self', inl e) ->
  self' = mkX509 input (publicKey self) (subject self) (certAlg self) \/
  (exists tbs first subj,
     tbsCertificate_of input tbs first /\
     getChildBytes tbs (subjectPublicKeyInfoIndex first - 1) = inr subj /\
     self' = mkX509 input (publicKey self) (Some subj) (certAlg self)) \/
  (exists subj spki algId count oid alg,
     locates input subj spki /\
     algorithmIdentifier_of spki algId count oid /\
     lookup_oid algorithm_table (list_ oid) = Some alg /\
     known_algorithm alg /\
     self' = mkX509 input (publicKey self) (Some subj) (Some alg)).
Proof.
  intros H.
  destruct (ASN1Parser input) as [x|p] eqn:Hp.
  { left. revert H. unfold parseBinary. unfold_run. rewrite Hp.
    intros [= <- _]. reflexivity. }
  destruct (getChild p 0) as [x|tbs] eqn:Ht.
  { left. revert H. unfold parseBinary. unfold_run. rewrite Hp.
    cbv beta iota. rewrite Ht. intros [= <- _]. reflexivity. }
  destruct (value tbs) as [|b rest] eqn:Hv.
  { left. revert H. unfold parseBinary. unfold_run. rewrite Hp.
    cbv beta iota. rewrite Ht. cbv beta iota. rewrite Hv.
    intros [= <- _]. reflexivity. }
  assert (T : tbsCertificate_of input tbs (Byte.to_N b)).
  { exists p, b, rest. auto. }
  destruct (getChildBytes tbs (subjectPublicKeyInfoIndex (Byte.to_N b) - 1))
    as [x|subj] eqn:Hs.
  { left. revert H. unfold parseBinary. unfold_run. rewrite Hp.
    cbv beta iota. rewrite Ht. cbv beta iota. rewrite Hv.
    cbv beta iota. rewrite Hs. intros [= <- _]. reflexivity. }
  right.
  destruct (getChild tbs (subjectPublicKeyInfoIndex (Byte.to_N b)))
    as [x|spki] eqn:Hk.
  { left. exists tbs, (Byte.to_N b), subj.
    split; [exact T|split; [exact Hs|]].
    revert H. unfold parseBinary. unfold_run. rewrite Hp.
    cbv beta iota. rewrite Ht. cbv beta iota. rewrite Hv.
    cbv beta iota. rewrite Hs. cbv beta iota.
    cbn [bytes publicKey subject certAlg]. rewrite Hk.
    intros [= <- _]. reflexivity. }
  assert (L : locates input subj spki).
  { exists tbs, (Byte.to_N b). auto. }
  rewrite (parseBinary_locates self L) in H.
  destruct (parseBinary_subjectPublicKeyInfo_failure _ _ H)
    as [->|(algId & count & oid & alg & A & Tb & K & ->)].
  - left. exists tbs, (Byte.to_N b), subj. auto.
  - right. exists subj, spki, algId, count, oid, alg. auto 10.
Qed.

End Failures.

(** * The claims *)

Section Claims.

Context {C : Collaborators}.
Local Open Scope x509_scope.

(** C5.  Algorithm resolution stores "rsa" for the OID
    1.2.840.113549.1.1.1, "rsa-pss" for 1.2.840.113549.1.1.10 and "ecdsa"
    for 1.2.840.10045.2.1, and fails with UnrecognizedAlgorithm for every
    other OID.  For RSA-PSS the parse goes straight to the RSA key
    extraction: the equation holds for every child count of the
    AlgorithmIdentifier and whatever its child 1 is, so the parameters
    are neither read nor able to make the parse fail. *)
Theorem algorithm_resolution (bytes subj : bytearray)
    (spki algId : ASN1Node) (count : nat) (oid : bytearray) (self : X509) :
  locates bytes subj spki ->
  algorithmIdentifier_of spki algId count oid ->
  (list_ oid = oid_octets [1; 2; 840; 113549; 1; 1; 1]%N ->
   certAlg (fst (parseBinary bytes self)) = Some "rsa"%string) /\
  (list_ oid = oid_octets [1; 2; 840; 113549; 1; 1; 10]%N ->
   certAlg (fst (parseBinary bytes self)) = Some "rsa-pss"%string /\
   parseBinary bytes self =
   _rsaPubKeyParsing spki (staged self bytes subj "rsa-pss")) /\
  (list_ oid = oid_octets [1; 2; 840; 10045; 2; 1]%N ->
   certAlg (fst (parseBinary bytes self)) = Some "ecdsa"%string) /\
  (list_ oid <> oid_octets [1; 2; 840; 113549; 1; 1; 1]%N ->
   list_ oid <> oid_octets [1; 2; 840; 113549; 1; 1; 10]%N ->
   list_ oid <> oid_octets [1; 2; 840; 10045; 2; 1]%N ->
   parseBinary bytes self =
   (mkX509 bytes (publicKey self) (Some subj) (certAlg self),
    inl UnrecognizedAlgorithm)).
Proof.
  intros L A. rewrite (parseBinary_locates self L).
  set (found := mkX509 bytes (publicKey self) (Some subj) (certAlg self)).
  change (oid_octets [1; 2; 840; 113549; 1; 1; 1]%N)
    with [42; 134; 72; 134; 247; 13; 1; 1; 1]%N.
  change (oid_octets [1; 2; 840; 113549; 1; 1; 10]%N)
    with [42; 134; 72; 134; 247; 13; 1; 1; 10]%N.
  change (oid_octets [1; 2; 840; 10045; 2; 1]%N)
    with [42; 134; 72; 206; 61; 2; 1]%N.
  repeat split.
  - intros Hoid. rewrite (rsa_row A found Hoid).
    destruct (negb (count =? 2)); [reflexivity|].
    destruct (getChild algId 1) as [x|params]; [reflexivity|].
    destruct (negb (bytes_eqb (value params) [])); [reflexivity|].
    apply _rsaPubKeyParsing_certAlg.
  - rewrite (pss_row A found H). apply _rsaPubKeyParsing_certAlg.
  - rewrite (pss_row A found H). reflexivity.
  - intros Hoid. rewrite (ecdsa_row A found Hoid).
    destruct (negb (count =? 2)); [reflexivity|].
    destruct (getChild algId 1) as [x|curveId]; [reflexivity|].
    destruct (lookup_oid curve_table _); [|reflexivity].
    apply _ecdsaPubKeyParsing_certAlg.
  - intros N1 N2 N3. apply (unrecognized_row A).
    rewrite algorithm_table_octets, !(list_eqb_sym _ (list_ oid)).
    rewrite (list_eqb_neq N1), (list_eqb_neq N2), (list_eqb_neq N3).
    reflexivity.
Qed.

(** C4.  For an ECDSA certificate the curve OID 1.2.840.10045.3.1.7
    sends the key to the EC extraction on P-256, 1.3.132.0.34 on P-384
    and 1.3.132.0.35 on P-521, and every other curve OID makes the parse
    fail with UnknownCurve; the key of a successful parse is the one
    the EC constructor builds for the curve the table gives for the OID
    found. *)
Theorem curve_resolution (bytes subj : bytearray) (spki algId : ASN1Node)
    (count : nat) (oid curveOid : bytearray) (self : X509) :
  locates bytes subj spki ->
  algorithmIdentifier_of spki algId count oid ->
  list_ oid = oid_octets [1; 2; 840; 10045; 2; 1]%N ->
  parameters_of algId count curveOid ->
  let st := staged self bytes subj "ecdsa" in
  (list_ curveOid = oid_octets [1; 2; 840; 10045; 3; 1; 7]%N ->
   parseBinary bytes self = _ecdsaPubKeyParsing spki NIST256p st) /\
  (list_ curveOid = oid_octets [1; 3; 132; 0; 34]%N ->
   parseBinary bytes self = _ecdsaPubKeyParsing spki NIST384p st) /\
  (list_ curveOid = oid_octets [1; 3; 132; 0; 35]%N ->
   parseBinary bytes self = _ecdsaPubKeyParsing spki NIST521p st) /\
  (list_ curveOid <> oid_octets [1; 2; 840; 10045; 3; 1; 7]%N ->
   list_ curveOid <> oid_octets [1; 3; 132; 0; 34]%N ->
   list_ curveOid <> oid_octets [1; 3; 132; 0; 35]%N ->
   parseBinary bytes self = (st, inl UnknownCurve)) /\
  (forall self',
     parseBinary bytes self = (self', inr tt) ->
     exists curve p k,
       lookup_oid curve_table (list_ curveOid) = Some curve /\
       getChild spki 1 = inr p /\
       VerifyingKey_from_string (skipn 2 (value p)) curve = inr k /\
       publicKey self' = Some (EcPublicKey k)).
Proof.
  intros L A Hoid (-> & params & Hp & Hv) st.
  rewrite (parseBinary_locates self L).
  rewrite (ecdsa_row A _ Hoid). cbn [Nat.eqb negb]. rewrite Hp, Hv.
  change (with_alg _ "ecdsa") with st.
  change (oid_octets [1; 2; 840; 10045; 3; 1; 7]%N)
    with [42; 134; 72; 206; 61; 3; 1; 7]%N.
  change (oid_octets [1; 3; 132; 0; 34]%N) with [43; 129; 4; 0; 34]%N.
  change (oid_octets [1; 3; 132; 0; 35]%N) with [43; 129; 4; 0; 35]%N.
  repeat split.
  - intros ->. reflexivity.
  - intros ->. reflexivity.
  - intros ->. reflexivity.
  - intros N1 N2 N3.
    rewrite curve_table_octets, !(list_eqb_sym _ (list_ curveOid)).
    rewrite (list_eqb_neq N1), (list_eqb_neq N2), (list_eqb_neq N3).
    reflexivity.
  - intros self' H.
    destruct (lookup_oid curve_table (list_ curveOid)) as [curve|];
      [|discriminate].
    destruct (_ecdsaPubKeyParsing_outcome spki curve st)
      as [(e & _ & E)|(p & k & P & _ & K & E)];
      rewrite E in H; [discriminate|].
    injection H as <-. exists curve, p, k. auto.
Qed.

(** C3.  For a certificate whose algorithm OID is
    1.2.840.113549.1.1.1, algorithm resolution passes the certificate on
    to the RSA key extraction when the AlgorithmIdentifier has exactly
    two children and the value of child 1 is empty, and only then can
    the parse succeed; an AlgorithmIdentifier with another child count
    (a missing parameters child) or with a non-empty parameters value
    is rejected with InvalidAlgorithmParameters, and nothing else is. *)
Theorem rsa_parameters_rule (bytes subj : bytearray)
    (spki algId : ASN1Node) (count : nat) (oid : bytearray) (self : X509) :
  locates bytes subj spki ->
  algorithmIdentifier_of spki algId count oid ->
  list_ oid = oid_octets [1; 2; 840; 113549; 1; 1; 1]%N ->
  let st := staged self bytes subj "rsa" in
  (parameters_of algId count [] ->
   parseBinary bytes self = _rsaPubKeyParsing spki st) /\
  (forall self',
     parseBinary bytes self = (self', inr tt) ->
     parameters_of algId count []) /\
  (count <> 2 -> parseBinary bytes self = (st, inl MissingParameters)) /\
  (forall v, parameters_of algId count v -> v <> [] ->
             parseBinary bytes self = (st, inl NonNullParameters)) /\
  ((exists self' e, parseBinary bytes self = (self', inl e) /\
                    InvalidAlgorithmParameters e = true)
   <-> count <> 2 \/ exists v, parameters_of algId count v /\ v <> []).
Proof.
  intros L A Hoid st.
  rewrite (parseBinary_locates self L).
  rewrite (rsa_row A _ Hoid). change (with_alg _ "rsa") with st.
  assert (Missing : count <> 2 ->
            (if negb (count =? 2) then (st, inl MissingParameters)
             else match getChild algId 1 with
                  | inl x => (st, inl (Collaborator x))
                  | inr params =>
                      if negb (bytes_eqb (value params) [])
                      then (st, inl NonNullParameters)
                      else _rsaPubKeyParsing spki st
                  end) = (st, inl MissingParameters)).
  { intros Hc. apply Nat.eqb_neq in Hc. rewrite Hc. reflexivity. }
  assert (NonNull : forall v, parameters_of algId count v -> v <> [] ->
            (if negb (count =? 2) then (st, inl MissingParameters)
             else match getChild algId 1 with
                  | inl x => (st, inl (Collaborator x))
                  | inr params =>
                      if negb (bytes_eqb (value params) [])
                      then (st, inl NonNullParameters)
                      else _rsaPubKeyParsing spki st
                  end) = (st, inl NonNullParameters)).
  { intros v (-> & params & Hp & Hv) Hne. cbn [Nat.eqb negb].
    rewrite Hp, Hv. apply bytes_eqb_neq in Hne. rewrite Hne. reflexivity. }
  repeat split.
  - intros (-> & params & Hp & Hv). cbn [Nat.eqb negb].
    rewrite Hp, Hv. reflexivity.
  - destruct (Nat.eqb_spec count 2) as [->|Hc]; cbn [negb] in H;
      [|discriminate].
    reflexivity.
  - destruct (Nat.eqb_spec count 2) as [->|Hc]; cbn [negb] in H;
      [|discriminate].
    destruct (getChild algId 1) as [x|params]; [discriminate|].
    exists params. split; [reflexivity|].
    destruct (bytes_eqb (value params) []) eqn:E; cbn [negb] in H;
      [|discriminate].
    apply bytes_eqb_eq. exact E.
  - exact Missing.
  - exact NonNull.
  - intros (self' & e & H & I).
    destruct (Nat.eqb_spec count 2) as [->|Hc]; cbn [negb] in H;
      [|left; exact Hc].
    right.
    destruct (getChild algId 1) as [x|params] eqn:Hp.
    { injection H as <- <-. discriminate. }
    destruct (bytes_eqb (value params) []) eqn:E; cbn [negb] in H.
    { rewrite (_rsaPubKeyParsing_error _ _ H) in I. discriminate. }
    exists (value params). split.
    + split; [reflexivity|]. exists params. auto.
    + apply bytes_eqb_neq. exact E.
  - intros [Hc|(v & P & Hne)].
    + exists st, MissingParameters. rewrite (Missing Hc). auto.
    + exists st, NonNullParameters. rewrite (NonNull v P Hne). auto.
Qed.

(** C6 (as the code has it).  A certificate that passes algorithm
    resolution and whose BIT STRING value has a non-zero first byte is
    rejected and no key is stored: by the RSA extraction (certAlg "rsa"
    or "rsa-pss") with InvalidBitStringEncoding, by the EC extraction,
    which tests the first two bytes at once, with
    UnexpectedPublicKeyEncoding. *)
Theorem unused_bits_rejected (bytes subj : bytearray) (spki : ASN1Node)
    (alg : string) (kind : KeyKind) (b : byte) (rest : bytearray)
    (self : X509) :
  locates bytes subj spki ->
  resolves spki alg kind ->
  subjectPublicKey_of spki (b :: rest) ->
  Byte.to_N b <> 0%N ->
  parseBinary bytes self =
  (staged self bytes subj alg, inl (refusal kind)).
Proof.
  intros L R (p & Hp & Hv) Hb.
  rewrite (parseBinary_resolved self L R).
  destruct kind as [|curve]; cbn [extraction refusal].
  - unfold _rsaPubKeyParsing. unfold_run. follow Hp. follow Hv.
    apply N.eqb_neq in Hb. rewrite Hb. reflexivity.
  - unfold _ecdsaPubKeyParsing. unfold_run. follow Hp. rewrite Hv.
    replace (bytes_eqb (firstn 2 (b :: rest)) (octets [0; 4]%N))
      with false; [reflexivity|].
    symmetry. apply bytes_eqb_neq. intros E.
    change (octets [0; 4]%N) with [x00; x04] in E.
    cbn [firstn] in E. injection E as -> _. apply Hb. reflexivity.
Qed.

(** C7.  An ECDSA certificate whose BIT STRING value does not begin
    with the two bytes 0x00, 0x04 is rejected with
    UnexpectedPublicKeyEncoding and no key is stored; in particular
    one that begins with 0x00, 0x03, the tag of a compressed point.  A
    parse that succeeds has read the prefix 0x00, 0x04. *)
Theorem ec_point_prefix_rule (bytes subj : bytearray) (spki : ASN1Node)
    (curve : Curve) (v : bytearray) (self : X509) :
  locates bytes subj spki ->
  resolves spki "ecdsa" (Ec curve) ->
  subjectPublicKey_of spki v ->
  let st := staged self bytes subj "ecdsa" in
  (firstn 2 v <> octets [0; 4]%N ->
   parseBinary bytes self = (st, inl UnexpectedPublicKeyEncoding)) /\
  (forall rest, v = octets [0; 3]%N ++ rest ->
   parseBinary bytes self = (st, inl UnexpectedPublicKeyEncoding)) /\
  (forall self', parseBinary bytes self = (self', inr tt) ->
   firstn 2 v = octets [0; 4]%N).
Proof.
  intros L R (p & Hp & Hv) st.
  rewrite (parseBinary_resolved self L R). cbn [extraction].
  change (staged self bytes subj "ecdsa") with st.
  assert (Reject : firstn 2 v <> octets [0; 4]%N ->
            _ecdsaPubKeyParsing spki curve st =
            (st, inl UnexpectedPublicKeyEncoding)).
  { intros Hne. unfold _ecdsaPubKeyParsing. unfold_run. follow Hp.
    rewrite Hv. apply bytes_eqb_neq in Hne. rewrite Hne. reflexivity. }
  split; [exact Reject|split].
  - intros rest ->. apply Reject. discriminate.
  - intros self' H.
    destruct (_ecdsaPubKeyParsing_outcome spki curve st)
      as [(e & _ & E)|(q & k & Hq & Hpre & _ & _)].
    + rewrite E in H. discriminate.
    + rewrite Hp in Hq. injection Hq as <-. rewrite <- Hv. exact Hpre.
Qed.

(** C2.  When the first byte of the value of tbsCertificate is 0xA0
    (the version field is present) [parseBinary] takes the subject from
    child 5 and subjectPublicKeyInfo from child 6 of tbsCertificate;
    when it is any other byte, from child 4 and child 5. *)
Theorem version_field_offset (bytes : bytearray) (tbs : ASN1Node)
    (first : N) (self : X509) :
  tbsCertificate_of bytes tbs first ->
  let st := mkX509 bytes (publicKey self) (subject self) (certAlg self) in
  (first = 0xA0%N ->
   parseBinary bytes self =
   (subj <- call (getChildBytes tbs 5) ;;
    set_subject subj ;;
    subjectPublicKeyInfoP <- call (getChild tbs 6) ;;
    parseBinary_subjectPublicKeyInfo subjectPublicKeyInfoP) st) /\
  (first <> 0xA0%N ->
   parseBinary bytes self =
   (subj <- call (getChildBytes tbs 4) ;;
    set_subject subj ;;
    subjectPublicKeyInfoP <- call (getChild tbs 5) ;;
    parseBinary_subjectPublicKeyInfo subjectPublicKeyInfoP) st).
Proof.
  intros (p & b & rest & Hp & Htbs & Hv & ->) st.
  unfold parseBinary, subjectPublicKeyInfoIndex.
  split; intros Hfirst.
  - unfold bind at 1. cbv beta iota delta [set_bytes].
    rewrite (bind_call_inr _ _ Hp), (bind_call_inr _ _ Htbs).
    rewrite (bind_item0_cons _ _ Hv). rewrite Hfirst. reflexivity.
  - unfold bind at 1. cbv beta iota delta [set_bytes].
    rewrite (bind_call_inr _ _ Hp), (bind_call_inr _ _ Htbs).
    rewrite (bind_item0_cons _ _ Hv).
    apply N.eqb_neq in Hfirst. rewrite Hfirst. reflexivity.
Qed.

(** C1 (as the code has it).  When [parseBinary] fails, publicKey is
    what it was before the call and rawEncoding holds the input, which
    is stored before anything is decoded; subject and certAlg are
    written as soon as they are decoded, subject first, so each is
    either what it was or already the new value: for subject the raw
    bytes of the child of tbsCertificate at the subject's index (4, or
    5 with a version field), for certAlg the name the resolution table
    gives for the algorithm OID of the certificate.  When [parse] fails
    in armor stripping no attribute is written; otherwise it fails as
    [parseBinary] does on the decoded bytes. *)
Theorem failed_parse_state :
  (forall (input : bytearray) (self self' : X509) (e : exn),
     parseBinary input self = (self', inl e) ->
     bytes self' = input /\
     publicKey self' = publicKey self /\
     (subject self' = subject self /\ certAlg self' = certAlg self
      \/ (exists tbs first subj,
            tbsCertificate_of input tbs first /\
            getChildBytes tbs (subjectPublicKeyInfoIndex first - 1)
              = inr subj /\
            subject self' = Some subj /\
            certAlg self' = certAlg self)
      \/ (exists subj spki algId count oid alg,
            locates input subj spki /\
            algorithmIdentifier_of spki algId count oid /\
            lookup_oid algorithm_table (list_ oid) = Some alg /\
            known_algorithm alg /\
            subject self' = Some subj /\
            certAlg self' = Some alg))) /\
  (forall (s : string) (self self' : X509) (e : exn),
     parse s self = (self', inl e) ->
     (exists x, dePem s "CERTIFICATE" = inl x /\
                e = Collaborator x /\ self' = self) \/
     (exists input, dePem s "CERTIFICATE" = inr input /\
                    parseBinary input self = (self', inl e))).
Proof.
  split.
  - intros input self self' e H.
    destruct (parseBinary_failure _ _ H)
      as [->|[(tbs & first & subj & T & S & ->)
         |(subj & spki & algId & count & oid & alg & L & A & Tb & K & ->)]];
      cbn [bytes publicKey subject certAlg];
      (split; [reflexivity|split; [reflexivity|]]).
    + left. auto.
    + right. left. exists tbs, first, subj. auto.
    + right. right. exists subj, spki, algId, count, oid, alg. auto 10.
  - intros s self self' e H. rewrite parse_run in H.
    destruct (dePem s "CERTIFICATE") as [x|input].
    + injection H as <- <-. left. eauto.
    + right. exists input. split; [reflexivity|].
      destruct (parseBinary input self) as [st [x|[]]];
        [|discriminate].
      injection H as <- <-. reflexivity.
Qed.

(** C8.  [writeBytes] returns the stored raw encoding and nothing
    else; after a [parseBinary] that accepted its input it returns
    exactly that input, and after a [parse] that succeeded the bytes
    armor stripping produced. *)
Theorem serialization_round_trip :
  (forall self : X509, writeBytes self = (self, inr (bytes self))) /\
  (forall (input : bytearray) (self self' : X509),
     parseBinary input self = (self', inr tt) ->
     writeBytes self' = (self', inr input)) /\
  (forall (s : string) (self self' cert : X509),
     parse s self = (self', inr cert) ->
     cert = self' /\
     exists input, dePem s "CERTIFICATE" = inr input /\
                   parseBinary input self = (self', inr tt) /\
                   writeBytes cert = (cert, inr input)).
Proof.
  split; [reflexivity|split].
  - intros input self self' H. unfold writeBytes.
    pose proof (parseBinary_bytes input self) as B. rewrite H in B.
    cbn [fst] in B. rewrite B. reflexivity.
  - intros s self self' cert H. rewrite parse_run in H.
    destruct (dePem s "CERTIFICATE") as [x|input]; [discriminate|].
    destruct (parseBinary input self) as [st [x|[]]] eqn:E;
      [discriminate|].
    injection H as <- <-. split; [reflexivity|].
    pose proof (parseBinary_bytes input self) as B. rewrite E in B.
    cbn [fst] in B.
    exists input. split; [reflexivity|split; [exact E|]].
    unfold writeBytes. rewrite B. reflexivity.
Qed.

End Claims.

(** * Beyond the claims *)

(** ** The writes of a parse do not depend on the entity *)

Section Writes.

Context {C : Collaborators}.
Local Open Scope x509_scope.

(** A key extraction fails or succeeds, and stores the same key,
    whatever entity it runs on. *)
Lemma extraction_uniform (kind : KeyKind) (spki : ASN1Node) :
  (exists e, forall self : X509,
     extraction kind spki self = (self, inl e)) \/
  (exists k,
     match kind with
     | Rsa => exists r, k = RsaPublicKey r
     | Ec _ => exists v, k = EcPublicKey v
     end /\
     forall self : X509,
       extraction kind spki self =
       (mkX509 (bytes self) (Some k) (subject self) (certAlg self),
        inr tt)).
Proof.
  destruct kind as [|curve]; cbn [extraction].
  - unfold _rsaPubKeyParsing. unfold_run.
    destruct (getChild spki 1) as [e|p]; [left; eauto|]. cbv beta iota.
    destruct (value p) as [|b rest]; [left; eauto|]. cbv beta iota.
    destruct (Byte.to_N b =? 0)%N; cbn [negb]; cbv iota; [|left; eauto].
    destruct (ASN1Parser _) as [e|q]; [left; eauto|]. cbv beta iota.
    destruct (getChild q 0) as [e|m]; [left; eauto|]. cbv beta iota.
    destruct (getChild q 1) as [e|x]; [left; eauto|]. cbv beta iota.
    destruct (_createPublicRSAKey _ _) as [e|k]; [left; eauto|].
    right. exists (RsaPublicKey k). eauto.
  - unfold _ecdsaPubKeyParsing. unfold_run.
    destruct (getChild spki 1) as [e|p]; [left; eauto|]. cbv beta iota.
    destruct (bytes_eqb _ _); cbn [negb]; cbv iota; [|left; eauto].
    destruct (VerifyingKey_from_string _ _) as [e|k]; [left; eauto|].
    right. exists (EcPublicKey k). eauto.
Qed.

Ltac uniform_extraction kind alg :=
  match goal with
  | spki : ASN1Node |- _ =>
      destruct (extraction_uniform kind spki) as [(e & H)|(k & K & H)];
      cbn [extraction] in H;
      [right; left; exists alg, e; split;
       [unfold known_algorithm; auto
       |intros self; rewrite H; reflexivity]
      |right; right; exists alg, k; split;
       [unfold key_matches; cbv beta iota in K; auto
       |intros self; rewrite H; reflexivity]]
  end.

(** Lines 82-122, the same for every entity. *)
Lemma parseBinary_subjectPublicKeyInfo_uniform (spki : ASN1Node) :
  (exists e, forall self : X509,
     parseBinary_subjectPublicKeyInfo spki self = (self, inl e)) \/
  (exists alg e,
     known_algorithm alg /\
     forall self : X509,
       parseBinary_subjectPublicKeyInfo spki self =
       (with_alg self alg, inl e)) \/
  (exists alg k,
     key_matches alg k /\
     forall self : X509,
       parseBinary_subjectPublicKeyInfo spki self =
       (mkX509 (bytes self) (Some k) (subject self) (Some alg), inr tt)).
Proof.
  unfold parseBinary_subjectPublicKeyInfo, with_alg. unfold_run.
  destruct (getChild spki 0) as [e|algId]; [left; eauto|]. cbv beta iota.
  destruct (getChildCount algId) as [e|count]; [left; eauto|].
  cbv beta iota.
  destruct (getChild algId 0) as [e|alg]; [left; eauto|]. cbv beta iota.
  destruct (list_eqb (list_ (value alg)) _);
    [|destruct (list_eqb (list_ (value alg)) _);
      [|destruct (list_eqb (list_ (value alg)) _);
        [|left; eauto]]];
    tests.
  - (* rsa *)
    destruct (count =? 2); cbn [negb]; cbv iota;
      [|right; left; do 2 eexists; split;
        [|intros self; reflexivity]; unfold known_algorithm; auto].
    destruct (getChild algId 1) as [e|params];
      [right; left; do 2 eexists; split;
       [|intros self; reflexivity]; unfold known_algorithm; auto|].
    cbv beta iota.
    destruct (bytes_eqb (value params) []); cbn [negb]; cbv iota;
      [|right; left; do 2 eexists; split;
        [|intros self; reflexivity]; unfold known_algorithm; auto].
    uniform_extraction Rsa "rsa"%string.
  - (* rsa-pss *)
    uniform_extraction Rsa "rsa-pss"%string.
  - (* ecdsa *)
    destruct (count =? 2); cbn [negb]; cbv iota;
      [|right; left; do 2 eexists; split;
        [|intros self; reflexivity]; unfold known_algorithm; auto].
    destruct (getChild algId 1) as [e|curveId];
      [right; left; do 2 eexists; split;
       [|intros self; reflexivity]; unfold known_algorithm; auto|].
    cbv beta iota.
    destruct (list_eqb (list_ (value curveId)) _);
      [uniform_extraction (Ec NIST256p) "ecdsa"%string|].
    destruct (list_eqb (list_ (value curveId)) _);
      [uniform_extraction (Ec NIST384p) "ecdsa"%string|].
    destruct (list_eqb (list_ (value curveId)) _);
      [uniform_extraction (Ec NIST521p) "ecdsa"%string|].
    right; left; do 2 eexists; split;
      [|intros self; reflexivity]; unfold known_algorithm; auto.
Qed.

(** [parseBinary], the same for every entity: what it writes and how
    it ends is fixed by the decoded tree. *)
Lemma parseBinary_uniform (r : external_error + ASN1Node) :
  (exists e, forall input (self : X509),
     ASN1Parser input = r ->
     parseBinary input self =
     (mkX509 input (publicKey self) (subject self) (certAlg self),
      inl e)) \/
  (exists subj e, forall input (self : X509),
     ASN1Parser input = r ->
     parseBinary input self =
     (mkX509 input (publicKey self) (Some subj) (certAlg self), inl e)) \/
  (exists subj alg e,
     known_algorithm alg /\
     forall input (self : X509),
       ASN1Parser input = r ->
       parseBinary input self =
       (mkX509 input (publicKey self) (Some subj) (Some alg), inl e)) \/
  (exists subj alg k,
     key_matches alg k /\
     forall input (self : X509),
       ASN1Parser input = r ->
       parseBinary input self =
       (mkX509 input (Some k) (Some subj) (Some alg), inr tt)).
Proof.
  unfold parseBinary. unfold_run.
  destruct r as [e|p].
  { left. exists (Collaborator e). intros input self ->. reflexivity. }
  destruct (getChild p 0) as [e|tbs] eqn:Htbs.
  { left. exists (Collaborator e). intros input self ->.
    cbv beta iota. rewrite Htbs. reflexivity. }
  destruct (value tbs) as [|b rest] eqn:Hv.
  { left. exists IndexError. intros input self ->.
    cbv beta iota. rewrite Htbs. cbv beta iota. rewrite Hv.
    reflexivity. }
  destruct (getChildBytes tbs (subjectPublicKeyInfoIndex (Byte.to_N b) - 1))
    as [e|subj] eqn:Hs.
  { left. exists (Collaborator e). intros input self ->.
    cbv beta iota. rewrite Htbs. cbv beta iota. rewrite Hv.
    cbv beta iota. rewrite Hs. reflexivity. }
  right.
  destruct (getChild tbs (subjectPublicKeyInfoIndex (Byte.to_N b)))
    as [e|spki] eqn:Hk.
  { left. exists subj, (Collaborator e). intros input self ->.
    cbv beta iota. rewrite Htbs. cbv beta iota. rewrite Hv.
    cbv beta iota. rewrite Hs. cbv beta iota.
    cbn [bytes publicKey subject certAlg]. rewrite Hk. reflexivity. }
  destruct (parseBinary_subjectPublicKeyInfo_uniform spki)
    as [(e & H)|[(alg & e & K & H)|(alg & k & K & H)]].
  - left. exists subj, e. intros input self ->.
    cbv beta iota. rewrite Htbs. cbv beta iota. rewrite Hv.
    cbv beta iota. rewrite Hs. cbv beta iota.
    cbn [bytes publicKey subject certAlg]. rewrite Hk. cbv beta iota.
    rewrite H. reflexivity.
  - right. left. exists subj, alg, e. split; [exact K|].
    intros input self ->.
    cbv beta iota. rewrite Htbs. cbv beta iota. rewrite Hv.
    cbv beta iota. rewrite Hs. cbv beta iota.
    cbn [bytes publicKey subject certAlg]. rewrite Hk. cbv beta iota.
    rewrite H. reflexivity.
  - right. right. exists subj, alg, k. split; [exact K|].
    intros input self ->.
    cbv beta iota. rewrite Htbs. cbv beta iota. rewrite Hv.
    cbv beta iota. rewrite Hs. cbv beta iota.
    cbn [bytes publicKey subject certAlg]. rewrite Hk. cbv beta iota.
    rewrite H. reflexivity.
Qed.

End Writes.

(** ** More on how a parse ends *)

Section Extras.

Context {C : Collaborators}.
Local Open Scope x509_scope.

(** A parse that succeeds leaves all four attributes set: the raw
    encoding is the input, the subject and the algorithm are stored,
    and the key is an RSA key for "rsa" and "rsa-pss", an EC key for
    "ecdsa". *)
Theorem successful_parse_populates (input : bytearray)
    (self self' : X509) :
  parseBinary input self = (self', inr tt) ->
  bytes self' = input /\
  exists subj alg k,
    subject self' = Some subj /\
    certAlg self' = Some alg /\
    publicKey self' = Some k /\
    key_matches alg k.
Proof.
  intros H.
  destruct (parseBinary_uniform (ASN1Parser input))
    as [(e & U)|[(subj & e & U)|[(subj & alg & e & _ & U)
       |(subj & alg & k & K & U)]]];
    rewrite (U input self eq_refl) in H; try discriminate.
  injection H as <-. split; [reflexivity|].
  exists subj, alg, k. auto.
Qed.

(** How a parse ends does not depend on the entity it runs on, and a
    parse that succeeds overwrites it completely: started on any other
    entity it ends in the same state. *)
Theorem successful_parse_overwrites (input : bytearray) :
  (forall self other : X509,
     snd (parseBinary input self) = snd (parseBinary input other)) /\
  (forall self self' other : X509,
     parseBinary input self = (self', inr tt) ->
     parseBinary input other = (self', inr tt)).
Proof.
  destruct (parseBinary_uniform (ASN1Parser input))
    as [(e & U)|[(subj & e & U)|[(subj & alg & e & _ & U)
       |(subj & alg & k & K & U)]]];
    (split;
     [intros self other;
      rewrite (U input self eq_refl), (U input other eq_refl); reflexivity
     |intros self self' other H;
      rewrite (U input self eq_refl) in H;
      rewrite (U input other eq_refl);
      try discriminate H]).
  injection H as <-. reflexivity.
Qed.

(** Apart from the raw encoding, a parse depends on its input only
    through the tree the decoder returns: two inputs with the same
    tree end alike and leave the same subject, algorithm and key. *)
Theorem parse_depends_on_tree (input1 input2 : bytearray) (self : X509) :
  ASN1Parser input1 = ASN1Parser input2 ->
  let r1 := parseBinary input1 self in
  let r2 := parseBinary input2 self in
  snd r1 = snd r2 /\
  subject (fst r1) = subject (fst r2) /\
  certAlg (fst r1) = certAlg (fst r2) /\
  publicKey (fst r1) = publicKey (fst r2) /\
  bytes (fst r1) = input1 /\ bytes (fst r2) = input2.
Proof.
  intros E. cbv zeta.
  destruct (parseBinary_uniform (ASN1Parser input2))
    as [(e & U)|[(subj & e & U)|[(subj & alg & e & _ & U)
       |(subj & alg & k & K & U)]]];
    rewrite (U input1 self E), (U input2 self eq_refl);
    repeat split.
Qed.

(** A tbsCertificate with an empty value makes the parse stop with an
    IndexError, only the raw encoding written. *)
Theorem empty_tbsCertificate (input : bytearray) (p tbs : ASN1Node)
    (self : X509) :
  ASN1Parser input = inr p ->
  getChild p 0 = inr tbs ->
  value tbs = [] ->
  parseBinary input self =
  (mkX509 input (publicKey self) (subject self) (certAlg self),
   inl IndexError).
Proof.
  intros Hp Htbs Hv. unfold parseBinary. unfold_run.
  follow Hp. follow Htbs. rewrite Hv. reflexivity.
Qed.

(** A BIT STRING with an empty value: the RSA extraction subscripts
    it and ends with an IndexError, the EC extraction slices it and
    ends with UnexpectedPublicKeyEncoding; no key is stored. *)
Theorem empty_bit_string (bytes subj : bytearray) (spki : ASN1Node)
    (alg : string) (kind : KeyKind) (self : X509) :
  locates bytes subj spki ->
  resolves spki alg kind ->
  subjectPublicKey_of spki [] ->
  parseBinary bytes self =
  (staged self bytes subj alg,
   inl match kind with
       | Rsa => IndexError
       | Ec _ => UnexpectedPublicKeyEncoding
       end).
Proof.
  intros L R (p & Hp & Hv).
  rewrite (parseBinary_resolved self L R).
  destruct kind as [|curve]; cbn [extraction].
  - unfold _rsaPubKeyParsing. unfold_run. follow Hp. rewrite Hv.
    reflexivity.
  - unfold _ecdsaPubKeyParsing. unfold_run. follow Hp. rewrite Hv.
    reflexivity.
Qed.

(** An ECDSA AlgorithmIdentifier whose child count is not 2 is
    rejected with "Missing parameters in AlgorithmIdentifier" before
    any curve is looked at; certAlg is already "ecdsa". *)
Theorem ecdsa_missing_parameters (bytes subj : bytearray)
    (spki algId : ASN1Node) (count : nat) (oid : bytearray) (self : X509) :
  locates bytes subj spki ->
  algorithmIdentifier_of spki algId count oid ->
  list_ oid = [42; 134; 72; 206; 61; 2; 1]%N ->
  count <> 2 ->
  parseBinary bytes self =
  (staged self bytes subj "ecdsa", inl MissingParameters).
Proof.
  intros L A Hoid Hc. rewrite (parseBinary_locates self L).
  rewrite (ecdsa_row A _ Hoid). apply Nat.eqb_neq in Hc. rewrite Hc.
  reflexivity.
Qed.

(** The RSA key: the modulus is child 0 and the exponent child 1 of
    the structure after the first byte of the BIT STRING, passed to the
    constructor in this order.  The parse succeeds with the key the
    constructor returns, fails with the constructor's error and no key
    when it fails, and succeeds in no other way. *)
Theorem rsa_key_extracted (bytes subj : bytearray) (spki : ASN1Node)
    (alg : string) (self : X509) :
  locates bytes subj spki ->
  resolves spki alg Rsa ->
  (forall n e, rsaPublicKey_of spki n e ->
     match _createPublicRSAKey n e with
     | inr k =>
         parseBinary bytes self =
         (mkX509 bytes (Some (RsaPublicKey k)) (Some subj) (Some alg),
          inr tt)
     | inl x =>
         parseBinary bytes self =
         (staged self bytes subj alg, inl (Collaborator x))
     end) /\
  (forall self',
     parseBinary bytes self = (self', inr tt) ->
     exists n e k,
       rsaPublicKey_of spki n e /\
       _createPublicRSAKey n e = inr k /\
       publicKey self' = Some (RsaPublicKey k)).
Proof.
  intros L R. rewrite (parseBinary_resolved self L R). cbn [extraction].
  split.
  - intros n e (p & b & rest & key & m & x & Hp & Hv & Hb & Hk & Hm & Hx
                & -> & ->).
    unfold _rsaPubKeyParsing. unfold_run.
    follow Hp. follow Hv. rewrite Hb. cbn [N.eqb negb skipn]. cbv iota.
    follow Hk. follow Hm. follow Hx.
    destruct (_createPublicRSAKey _ _); reflexivity.
  - intros self'. unfold _rsaPubKeyParsing. unfold_run.
    destruct (getChild spki 1) as [e|p] eqn:Hp; [discriminate|].
    cbv beta iota.
    destruct (value p) as [|b rest] eqn:Hv; [discriminate|].
    cbv beta iota.
    destruct (Byte.to_N b =? 0)%N eqn:Hb; cbn [negb]; cbv iota;
      [|discriminate].
    cbn [skipn].
    destruct (ASN1Parser rest) as [e|key] eqn:Hk; [discriminate|].
    cbv beta iota.
    destruct (getChild key 0) as [e|m] eqn:Hm; [discriminate|].
    cbv beta iota.
    destruct (getChild key 1) as [e|x] eqn:Hx; [discriminate|].
    cbv beta iota.
    destruct (_createPublicRSAKey _ _) as [e|k] eqn:Hc; [discriminate|].
    intros [= <-].
    exists (bytesToNumber (value m)), (bytesToNumber (value x)), k.
    split; [|split; [exact Hc|reflexivity]].
    exists p, b, rest, key, m, x. apply N.eqb_eq in Hb. auto 10.
Qed.

(** The EC key: the string after the prefix 0x00, 0x04 goes to the
    constructor with the curve of the certificate.  The parse succeeds
    with the key the constructor returns and fails with the
    constructor's error, no key stored, when it refuses the string. *)
Theorem ec_key_extracted (bytes subj : bytearray) (spki : ASN1Node)
    (alg : string) (curve : Curve) (s : bytearray) (self : X509) :
  locates bytes subj spki ->
  resolves spki alg (Ec curve) ->
  ecPoint_of spki s ->
  match VerifyingKey_from_string s curve with
  | inr k =>
      parseBinary bytes self =
      (mkX509 bytes (Some (EcPublicKey k)) (Some subj) (Some alg), inr tt)
  | inl x =>
      parseBinary bytes self =
      (staged self bytes subj alg, inl (Collaborator x))
  end.
Proof.
  intros L R (p & Hp & Hpre & ->).
  rewrite (parseBinary_resolved self L R). cbn [extraction].
  unfold _ecdsaPubKeyParsing. unfold_run. follow Hp.
  apply bytes_eqb_eq in Hpre. rewrite Hpre. cbn [negb]. cbv iota.
  destruct (VerifyingKey_from_string _ _); reflexivity.
Qed.

(** Where a decoding failure leaves the entity: a failure to decode
    the Certificate, to find tbsCertificate or to find the subject
    leaves only the raw encoding written; a failure to find
    subjectPublicKeyInfo leaves the subject written too.  The
    decoder's error reaches the caller as it is. *)
Theorem decode_failure_stages (input : bytearray) (self : X509) :
  let st := mkX509 input (publicKey self) (subject self) (certAlg self) in
  (forall x, ASN1Parser input = inl x ->
     parseBinary input self = (st, inl (Collaborator x))) /\
  (forall p x, ASN1Parser input = inr p -> getChild p 0 = inl x ->
     parseBinary input self = (st, inl (Collaborator x))) /\
  (forall tbs first x,
     tbsCertificate_of input tbs first ->
     getChildBytes tbs (subjectPublicKeyInfoIndex first - 1) = inl x ->
     parseBinary input self = (st, inl (Collaborator x))) /\
  (forall tbs first subj x,
     tbsCertificate_of input tbs first ->
     getChildBytes tbs (subjectPublicKeyInfoIndex first - 1) = inr subj ->
     getChild tbs (subjectPublicKeyInfoIndex first) = inl x ->
     parseBinary input self =
     (mkX509 input (publicKey self) (Some subj) (certAlg self),
      inl (Collaborator x))).
Proof.
  cbv zeta. unfold parseBinary. unfold_run. repeat split.
  - intros x Hp. follow Hp. reflexivity.
  - intros p x Hp Ht. follow Hp. follow Ht. reflexivity.
  - intros tbs first x (p & b & rest & Hp & Ht & Hv & ->) Hs.
    follow Hp. follow Ht. follow Hv. follow Hs. reflexivity.
  - intros tbs first subj x (p & b & rest & Hp & Ht & Hv & ->) Hs Hk.
    follow Hp. follow Ht. follow Hv. follow Hs.
    cbn [bytes publicKey subject certAlg]. follow Hk. reflexivity.
Qed.

(** An entity parsed once and parsed again: when the second parse
    fails the entity keeps the key of the first input next to the raw
    encoding of the second, and its fingerprint is that of the second
    input. *)
Theorem failed_reparse_keeps_key (first second : bytearray)
    (self parsed failed : X509) (e : exn) :
  parseBinary first self = (parsed, inr tt) ->
  parseBinary second parsed = (failed, inl e) ->
  bytes failed = second /\
  (exists k, publicKey parsed = Some k /\ publicKey failed = Some k) /\
  snd (getFingerprint failed) = inr (b2a_hex (SHA1 second)).
Proof.
  intros H1 H2.
  assert (Hk : exists k, publicKey parsed = Some k).
  { destruct (parseBinary_ends first self)
      as [(x & E)|[(s & x & E)|[(s & a & x & _ & E)|(s & a & k & _ & E)]]];
      rewrite E in H1; try discriminate.
    injection H1 as <-. exists k. reflexivity. }
  destruct Hk as (k & Hk).
  pose proof (parseBinary_bytes second parsed) as B.
  rewrite H2 in B. cbn [fst] in B.
  destruct (parseBinary_ends second parsed)
    as [(x & E)|[(s & x & E)|[(s & a & x & _ & E)|(s & a & k' & _ & E)]]];
    rewrite E in H2; try discriminate;
    injection H2 as <- <-; cbn [bytes publicKey];
    (split; [reflexivity|split; [exists k; auto|reflexivity]]).
Qed.

Lemma rsa_extraction_parse_error (e : exn) :
  rsa_extraction_error e -> parse_error e.
Proof.
  unfold parse_error. intros [->|[->|(x & ->)]]; eauto 10.
Qed.

Lemma ec_extraction_parse_error (e : exn) :
  ec_extraction_error e -> parse_error e.
Proof.
  unfold parse_error. intros [->|(x & ->)]; eauto 10.
Qed.

Ltac raised :=
  intros [= <- <-]; unfold parse_error; eauto 10.

Ltac extraction_raised :=
  let H := fresh "H" in
  intros H;
  match type of H with
  | _rsaPubKeyParsing ?spki ?st = _ =>
      destruct (_rsaPubKeyParsing_outcome spki st)
        as [(x & K & E)|(k & E)];
      rewrite E in H; [|discriminate H];
      injection H as <- <-; apply rsa_extraction_parse_error; exact K
  | _ecdsaPubKeyParsing ?spki ?curve ?st = _ =>
      destruct (_ecdsaPubKeyParsing_outcome spki curve st)
        as [(x & K & E)|(p & k & _ & _ & _ & E)];
      rewrite E in H; [|discriminate H];
      injection H as <- <-; apply ec_extraction_parse_error; exact K
  end.

Lemma parseBinary_subjectPublicKeyInfo_errors (spki : ASN1Node)
    (self self' : X509) (e : exn) :
  parseBinary_subjectPublicKeyInfo spki self = (self', inl e) ->
  parse_error e.
Proof.
  unfold parseBinary_subjectPublicKeyInfo. unfold_run.
  destruct (getChild spki 0) as [x|algId]; [raised|]. cbv beta iota.
  destruct (getChildCount algId) as [x|count]; [raised|]. cbv beta iota.
  destruct (getChild algId 0) as [x|alg]; [raised|]. cbv beta iota.
  destruct (list_eqb (list_ (value alg)) _);
    [|destruct (list_eqb (list_ (value alg)) _);
      [|destruct (list_eqb (list_ (value alg)) _); [|raised]]];
    tests.
  - destruct (count =? 2); cbn [negb]; cbv iota; [|raised].
    destruct (getChild algId 1) as [x|params]; [raised|]. cbv beta iota.
    destruct (bytes_eqb (value params) []); cbn [negb]; cbv iota;
      [|raised].
    extraction_raised.
  - extraction_raised.
  - destruct (count =? 2); cbn [negb]; cbv iota; [|raised].
    destruct (getChild algId 1) as [x|curveId]; [raised|]. cbv beta iota.
    destruct (list_eqb (list_ (value curveId)) _); [extraction_raised|].
    destruct (list_eqb (list_ (value curveId)) _); [extraction_raised|].
    destruct (list_eqb (list_ (value curveId)) _); [extraction_raised|].
    raised.
Qed.

(** Every exception of [parseBinary] is a collaborator's error, the
    IndexError of an empty value, or one of the six SyntaxErrors of
    [x509.py]. *)
Theorem parse_errors (input : bytearray) (self self' : X509) (e : exn) :
  parseBinary input self = (self', inl e) -> parse_error e.
Proof.
  unfold parseBinary. unfold_run.
  destruct (ASN1Parser input) as [x|p]; [raised|]. cbv beta iota.
  destruct (getChild p 0) as [x|tbs]; [raised|]. cbv beta iota.
  destruct (value tbs) as [|b rest]; [raised|]. cbv beta iota.
  destruct (getChildBytes tbs _) as [x|subj]; [raised|]. cbv beta iota.
  destruct (getChild tbs _) as [x|spki]; [raised|]. cbv beta iota.
  apply parseBinary_subjectPublicKeyInfo_errors.
Qed.

End Extras.

(** ** The claims on the samples *)

#[global] Existing Instance Reference.collaborators.

(** The sample RSA-PSS certificate carries parameters; it parses, as
    "rsa-pss". *)
Lemma algorithm_resolution_witness :
  certAlg (fst (parseBinary Samples.cert_pss __init__)) =
    Some "rsa-pss"%string /\
  snd (parseBinary Samples.cert_pss __init__) = inr tt.
Proof.
  split.
  - refine (proj1 (proj1 (proj2
      (@algorithm_resolution Reference.collaborators Samples.cert_pss
         Samples.name
         (Samples.node_of
            (Samples.spki_content Samples.algId_pss Samples.key_rsa))
         (Samples.node_of Samples.algId_pss) 2 Samples.oid_pss __init__
         _ _)) _)).
    + sample_locates true
        (Samples.spki_content Samples.algId_pss Samples.key_rsa).
    + sample_algorithmIdentifier Samples.oid_pss.
    + by_running.
  - by_running.
Defined.

(** The sample P-256 certificate parses to the base point as a key on
    NIST256p. *)
Lemma curve_resolution_witness :
  parseBinary Samples.cert_ec __init__ =
  (mkX509 Samples.cert_ec (Some (EcPublicKey Samples.the_ec_key))
          (Some Samples.name) (Some "ecdsa"%string), inr tt) /\
  Reference.vk_curve Samples.the_ec_key = NIST256p.
Proof.
  split; [|reflexivity].
  refine (eq_trans (proj1
    (@curve_resolution Reference.collaborators Samples.cert_ec
       Samples.name
       (Samples.node_of
          (Samples.spki_content Samples.algId_p256 Samples.key_ec))
       (Samples.node_of Samples.algId_p256) 2 Samples.oid_ecPublicKey
       Samples.oid_prime256v1 __init__ _ _ _ _) _) _).
  - sample_locates true
      (Samples.spki_content Samples.algId_p256 Samples.key_ec).
  - sample_algorithmIdentifier Samples.oid_ecPublicKey.
  - by_running.
  - sample_parameters Samples.oid_prime256v1.
  - by_running.
  - by_running.
Defined.

(** The sample RSA certificate has NULL parameters and goes to the key
    extraction, which succeeds. *)
Lemma rsa_parameters_rule_witness :
  parseBinary Samples.cert_rsa __init__ =
  (mkX509 Samples.cert_rsa (Some (RsaPublicKey Samples.the_rsa_key))
          (Some Samples.name) (Some "rsa"%string), inr tt).
Proof.
  refine (eq_trans (proj1
    (@rsa_parameters_rule Reference.collaborators Samples.cert_rsa
       Samples.name
       (Samples.node_of
          (Samples.spki_content Samples.algId_rsa Samples.key_rsa))
       (Samples.node_of Samples.algId_rsa) 2 Samples.oid_rsa __init__
       _ _ _) _) _).
  - sample_locates true
      (Samples.spki_content Samples.algId_rsa Samples.key_rsa).
  - sample_algorithmIdentifier Samples.oid_rsa.
  - by_running.
  - sample_parameters (@nil byte).
  - by_running.
Defined.

(** The P-256 sample with the unused-bit count set to 1: the EC
    extraction answers UnexpectedPublicKeyEncoding, not
    InvalidBitStringEncoding. *)
Lemma unused_bits_ec_error :
  hd x00 Samples.key_ec_unused_bits = x01 /\
  parseBinary Samples.cert_ec_unused_bits __init__ =
  (mkX509 Samples.cert_ec_unused_bits None (Some Samples.name)
          (Some "ecdsa"%string), inl UnexpectedPublicKeyEncoding) /\
  UnexpectedPublicKeyEncoding <> InvalidBitStringEncoding.
Proof.
  split; [by_running|split; [by_running|discriminate]].
Qed.

(** The RSA sample with the unused-bit count set to 7 is rejected with
    InvalidBitStringEncoding. *)
Lemma unused_bits_rejected_witness :
  parseBinary Samples.cert_rsa_unused_bits __init__ =
  (mkX509 Samples.cert_rsa_unused_bits None (Some Samples.name)
          (Some "rsa"%string), inl InvalidBitStringEncoding).
Proof.
  refine (@unused_bits_rejected Reference.collaborators
    Samples.cert_rsa_unused_bits Samples.name
    (Samples.node_of
       (Samples.spki_content Samples.algId_rsa Samples.key_rsa_unused_bits))
    "rsa" Rsa (octet 7) Samples.RSAPublicKey __init__ _ _ _ _).
  - sample_locates true
      (Samples.spki_content Samples.algId_rsa Samples.key_rsa_unused_bits).
  - apply resolves_rsa
      with (algId := Samples.node_of Samples.algId_rsa) (count := 2)
           (oid := Samples.oid_rsa).
    + sample_algorithmIdentifier Samples.oid_rsa.
    + by_running.
    + sample_parameters (@nil byte).
  - exists (Samples.node_of Samples.key_rsa_unused_bits).
    split; by_running.
  - discriminate.
Defined.

(** The P-256 sample with a compressed point is rejected. *)
Lemma ec_point_prefix_rule_witness :
  parseBinary Samples.cert_ec_compressed __init__ =
  (mkX509 Samples.cert_ec_compressed None (Some Samples.name)
          (Some "ecdsa"%string), inl UnexpectedPublicKeyEncoding).
Proof.
  refine (proj1 (@ec_point_prefix_rule Reference.collaborators
    Samples.cert_ec_compressed Samples.name
    (Samples.node_of
       (Samples.spki_content Samples.algId_p256 Samples.key_ec_compressed))
    NIST256p Samples.key_ec_compressed __init__ _ _ _) _).
  - sample_locates true
      (Samples.spki_content Samples.algId_p256 Samples.key_ec_compressed).
  - apply resolves_ecdsa
      with (algId := Samples.node_of Samples.algId_p256) (count := 2)
           (oid := Samples.oid_ecPublicKey)
           (curveOid := Samples.oid_prime256v1).
    + sample_algorithmIdentifier Samples.oid_ecPublicKey.
    + by_running.
    + sample_parameters Samples.oid_prime256v1.
    + left. split; by_running.
  - exists (Samples.node_of Samples.key_ec_compressed). split; by_running.
  - discriminate.
Defined.

(** The two RSA samples differ in the version field only: the subject
    and the key are found at 5 and 6 in one, at 4 and 5 in the other,
    and are the same. *)
Lemma version_field_offset_witness :
  (parseBinary Samples.cert_rsa __init__ =
   (mkX509 Samples.cert_rsa (Some (RsaPublicKey Samples.the_rsa_key))
           (Some Samples.name) (Some "rsa"%string), inr tt)) /\
  (parseBinary Samples.cert_rsa_v1 __init__ =
   (mkX509 Samples.cert_rsa_v1 (Some (RsaPublicKey Samples.the_rsa_key))
           (Some Samples.name) (Some "rsa"%string), inr tt)).
Proof.
  split.
  - refine (eq_trans (proj1 (@version_field_offset Reference.collaborators
      Samples.cert_rsa
      (Samples.node_of
         (Samples.tbs_content true
            (Samples.spki_content Samples.algId_rsa Samples.key_rsa)))
      0xA0%N __init__ _) _) _).
    + exists (Samples.node_of
                (Samples.certificate_content true
                   (Samples.spki_content Samples.algId_rsa Samples.key_rsa))),
             (octet 0xA0),
             (tl (Samples.tbs_content true
                    (Samples.spki_content Samples.algId_rsa
                       Samples.key_rsa))).
      repeat split; by_running.
    + reflexivity.
    + by_running.
  - refine (eq_trans (proj2 (@version_field_offset Reference.collaborators
      Samples.cert_rsa_v1
      (Samples.node_of
         (Samples.tbs_content false
            (Samples.spki_content Samples.algId_rsa Samples.key_rsa)))
      2%N __init__ _) _) _).
    + exists (Samples.node_of
                (Samples.certificate_content false
                   (Samples.spki_content Samples.algId_rsa Samples.key_rsa))),
             (octet 2),
             (tl (Samples.tbs_content false
                    (Samples.spki_content Samples.algId_rsa
                       Samples.key_rsa))).
      repeat split; by_running.
    + discriminate.
    + by_running.
Defined.

(** The sample with an algorithm OID outside the table fails after
    the input and the subject were stored: the entity is neither what
    it was nor fully populated. *)
Lemma failed_parse_writes_fields :
  parseBinary Samples.cert_dsa __init__ =
  (mkX509 Samples.cert_dsa None (Some Samples.name) None,
   inl UnrecognizedAlgorithm) /\
  bytes (fst (parseBinary Samples.cert_dsa __init__)) <> bytes __init__ /\
  subject (fst (parseBinary Samples.cert_dsa __init__))
    <> subject __init__ /\
  certAlg (fst (parseBinary Samples.cert_dsa __init__)) = certAlg __init__ /\
  publicKey (fst (parseBinary Samples.cert_dsa __init__))
    = publicKey __init__.
Proof.
  split; [by_running|].
  split; [intros H; vm_compute in H; discriminate H|].
  split; [intros H; vm_compute in H; discriminate H|].
  split; by_running.
Qed.

(** The same sample, and a PEM text whose payload is a truncated
    certificate. *)
Lemma failed_parse_state_witness :
  (bytes (fst (parseBinary Samples.cert_dsa __init__)) = Samples.cert_dsa /\
   publicKey (fst (parseBinary Samples.cert_dsa __init__)) = None /\
   subject (fst (parseBinary Samples.cert_dsa __init__)) =
     Some Samples.name) /\
  (exists input,
     Reference.dePem Samples.pem_truncated "CERTIFICATE" = inr input /\
     parseBinary input __init__ =
     (mkX509 (octets [0x30]%N) None None None,
      inl (Collaborator DecodeError))).
Proof.
  split.
  - destruct (proj1 (@failed_parse_state Reference.collaborators)
                Samples.cert_dsa __init__
                (fst (parseBinary Samples.cert_dsa __init__))
                UnrecognizedAlgorithm) as (B & K & _).
    + by_running.
    + split; [exact B|split; [exact K|by_running]].
  - destruct (proj2 (@failed_parse_state Reference.collaborators)
                Samples.pem_truncated __init__
                (mkX509 (octets [0x30]%N) None None None)
                (Collaborator DecodeError)) as [(x & D & _)|H].
    + by_running.
    + vm_compute in D. discriminate D.
    + exact H.
Defined.

(** The sample RSA certificate comes back byte for byte, parsed as
    bytes or from its PEM text. *)
Lemma serialization_round_trip_witness :
  snd (writeBytes (fst (parseBinary Samples.cert_rsa __init__))) =
  inr Samples.cert_rsa /\
  (exists cert, snd (parse Samples.pem_rsa __init__) = inr cert /\
                snd (writeBytes cert) = inr Samples.cert_rsa).
Proof.
  split.
  - rewrite (proj1 (proj2
               (@serialization_round_trip Reference.collaborators))
               Samples.cert_rsa __init__
               (fst (parseBinary Samples.cert_rsa __init__))).
    + reflexivity.
    + by_running.
  - exists (fst (parse Samples.pem_rsa __init__)).
    split; [by_running|].
    destruct (proj2 (proj2
                (@serialization_round_trip Reference.collaborators))
                Samples.pem_rsa __init__
                (fst (parse Samples.pem_rsa __init__))
                (fst (parse Samples.pem_rsa __init__)))
      as (_ & input & D & _ & W).
    + by_running.
    + rewrite W. cbn [snd]. f_equal.
      assert (E : inr input = inr (A:=external_error) Samples.cert_rsa)
        by (rewrite <- D; by_running).
      injection E as ->. reflexivity.
Defined.

(** ** The fingerprint *)

Lemma hexdigit_lowercase (n : N) :
  lowercase_hex (Reference.hexdigit n) = true.
Proof.
  unfold Reference.hexdigit.
  destruct (N.to_nat n) as [|k]; [reflexivity|].
  do 15 (destruct k as [|k]; [reflexivity|]).
  reflexivity.
Qed.

Lemma b2a_hex_lowercase (b : bytearray) :
  all_chars lowercase_hex (Reference.b2a_hex b) = true.
Proof.
  induction b as [|x rest IH]; [reflexivity|].
  cbn [Reference.b2a_hex all_chars].
  rewrite !hexdigit_lowercase, IH. reflexivity.
Qed.

Lemma b2a_hex_length (b : bytearray) :
  String.length (Reference.b2a_hex b) = 2 * List.length b.
Proof.
  induction b as [|x rest IH]; [reflexivity|].
  cbn [Reference.b2a_hex String.length List.length]. rewrite IH. lia.
Qed.

Lemma SHA1_length (x : bytearray) : List.length (Reference.SHA1 x) = 20.
Proof.
  unfold Reference.SHA1.
  destruct (Reference.sha1_blocks _ _ _) as [[[[h0 h1] h2] h3] h4].
  reflexivity.
Qed.

(** C9.  [getFingerprint] returns the hexadecimal text of the SHA-1
    digest of the stored raw encoding and of nothing else: two
    entities with equal raw encodings have equal fingerprints whatever
    their other attributes, and so have two parses of the same input.
    With the reference SHA-1 and hex encoding the text is 40 lowercase
    hexadecimal digits. *)
Theorem fingerprint_of_raw_encoding :
  (forall (C : Collaborators) (self : X509),
     getFingerprint self = (self, inr (b2a_hex (SHA1 (bytes self))))) /\
  (forall (C : Collaborators) (c1 c2 : X509),
     bytes c1 = bytes c2 ->
     snd (getFingerprint c1) = snd (getFingerprint c2)) /\
  (forall (C : Collaborators) (input : bytearray) (c1 c2 : X509),
     snd (getFingerprint (fst (parseBinary input c1))) =
     snd (getFingerprint (fst (parseBinary input c2)))) /\
  (forall (self : @X509 Reference.collaborators) (fp : string),
     snd (getFingerprint self) = inr fp ->
     String.length fp = 40 /\ all_chars lowercase_hex fp = true).
Proof.
  split; [reflexivity|split; [|split]].
  - intros C c1 c2 H. unfold getFingerprint. cbn [snd]. rewrite H.
    reflexivity.
  - intros C input c1 c2. unfold getFingerprint. cbn [snd].
    rewrite !parseBinary_bytes. reflexivity.
  - intros self fp H. injection H as <-. split.
    + change (String.length
                (Reference.b2a_hex (Reference.SHA1 (bytes self))) = 40).
      rewrite b2a_hex_length, SHA1_length. reflexivity.
    + apply b2a_hex_lowercase.
Qed.

(** Two parses of one input into entities with different histories. *)
Lemma fingerprint_of_raw_encoding_witness :
  snd (getFingerprint (fst (parseBinary Samples.cert_rsa __init__))) =
  snd (getFingerprint
         (fst (parseBinary Samples.cert_rsa
                 (fst (parseBinary Samples.cert_ec __init__))))) /\
  String.length "da39a3ee5e6b4b0d3255bfef95601890afd80709" = 40.
Proof.
  split.
  - apply (proj1 (proj2 fingerprint_of_raw_encoding)
             Reference.collaborators).
    rewrite !parseBinary_bytes. reflexivity.
  - apply (proj2 (proj2 (proj2 fingerprint_of_raw_encoding)) __init__).
    by_running.
Defined.

(** C10.  On an entity that was constructed and never parsed
    [getFingerprint] does not fail: [__init__] sets the raw encoding to
    the empty byte sequence and the call returns the hexadecimal SHA-1
    digest of the empty sequence. *)
Theorem fingerprint_of_fresh_entity :
  (forall C : Collaborators,
     bytes (__init__ (C:=C)) = [] /\
     getFingerprint (__init__ (C:=C)) =
     (__init__, inr (b2a_hex (SHA1 [])))) /\
  getFingerprint (__init__ (C:=Reference.collaborators)) =
  (__init__, inr "da39a3ee5e6b4b0d3255bfef95601890afd80709"%string).
Proof.
  split; [intros C; split; reflexivity|by_running].
Qed.

(** ** Beyond the claims, on the samples *)

Ltac sample_resolves_rsa :=
  apply resolves_rsa
    with (algId := Samples.node_of Samples.algId_rsa) (count := 2)
         (oid := Samples.oid_rsa);
  [sample_algorithmIdentifier Samples.oid_rsa
  |by_running
  |sample_parameters (@nil byte)].

Ltac sample_resolves_p256 :=
  apply resolves_ecdsa
    with (algId := Samples.node_of Samples.algId_p256) (count := 2)
         (oid := Samples.oid_ecPublicKey)
         (curveOid := Samples.oid_prime256v1);
  [sample_algorithmIdentifier Samples.oid_ecPublicKey
  |by_running
  |sample_parameters Samples.oid_prime256v1
  |left; split; by_running].

(** The P-256 sample ends with an EC key under "ecdsa". *)
Lemma successful_parse_populates_witness :
  exists k,
    publicKey (fst (parseBinary Samples.cert_ec __init__)) = Some k /\
    key_matches "ecdsa" k.
Proof.
  destruct (@successful_parse_populates Reference.collaborators
              Samples.cert_ec __init__
              (fst (parseBinary Samples.cert_ec __init__)))
    as (_ & subj & alg & k & _ & A & K & M).
  - by_running.
  - exists k. split; [exact K|].
    assert (E : Some alg = Some "ecdsa"%string)
      by (rewrite <- A; by_running).
    injection E as <-. exact M.
Defined.

(** The RSA sample parsed into an entity that held the P-256 sample
    leaves what it leaves in a new entity. *)
Lemma successful_parse_overwrites_witness :
  parseBinary Samples.cert_rsa
    (fst (parseBinary Samples.cert_ec __init__)) =
  (mkX509 Samples.cert_rsa (Some (RsaPublicKey Samples.the_rsa_key))
          (Some Samples.name) (Some "rsa"%string), inr tt).
Proof.
  apply (proj2 (@successful_parse_overwrites Reference.collaborators
                  Samples.cert_rsa) __init__).
  by_running.
Defined.

(** The reference decoder reads one element and ignores what
    follows it: the RSA sample with three more bytes has the same key,
    and another raw encoding. *)
Lemma parse_depends_on_tree_witness :
  publicKey (fst (parseBinary Samples.cert_rsa_trailing __init__)) =
  publicKey (fst (parseBinary Samples.cert_rsa __init__)) /\
  bytes (fst (parseBinary Samples.cert_rsa_trailing __init__)) =
  Samples.cert_rsa_trailing.
Proof.
  destruct (@parse_depends_on_tree Reference.collaborators
              Samples.cert_rsa_trailing Samples.cert_rsa __init__)
    as (_ & _ & _ & K & B & _).
  - by_running.
  - split; [exact K|exact B].
Defined.

Lemma empty_tbsCertificate_witness :
  parseBinary Samples.cert_empty_tbs __init__ =
  (mkX509 Samples.cert_empty_tbs None None None, inl IndexError).
Proof.
  apply (@empty_tbsCertificate Reference.collaborators
           Samples.cert_empty_tbs
           (Samples.node_of (Samples.tlv 0x30 []))
           (Samples.node_of [])); by_running.
Defined.

Lemma empty_bit_string_witness :
  parseBinary Samples.cert_rsa_empty_key __init__ =
  (mkX509 Samples.cert_rsa_empty_key None (Some Samples.name)
          (Some "rsa"%string), inl IndexError) /\
  parseBinary Samples.cert_ec_empty_key __init__ =
  (mkX509 Samples.cert_ec_empty_key None (Some Samples.name)
          (Some "ecdsa"%string), inl UnexpectedPublicKeyEncoding).
Proof.
  split.
  - refine (@empty_bit_string Reference.collaborators
              Samples.cert_rsa_empty_key Samples.name
              (Samples.node_of (Samples.spki_content Samples.algId_rsa []))
              "rsa" Rsa __init__ _ _ _).
    + sample_locates true (Samples.spki_content Samples.algId_rsa []).
    + sample_resolves_rsa.
    + exists (Samples.node_of []). split; by_running.
  - refine (@empty_bit_string Reference.collaborators
              Samples.cert_ec_empty_key Samples.name
              (Samples.node_of (Samples.spki_content Samples.algId_p256 []))
              "ecdsa" (Ec NIST256p) __init__ _ _ _).
    + sample_locates true (Samples.spki_content Samples.algId_p256 []).
    + sample_resolves_p256.
    + exists (Samples.node_of []). split; by_running.
Defined.

Lemma ecdsa_missing_parameters_witness :
  parseBinary Samples.cert_ec_no_params __init__ =
  (mkX509 Samples.cert_ec_no_params None (Some Samples.name)
          (Some "ecdsa"%string), inl MissingParameters).
Proof.
  refine (@ecdsa_missing_parameters Reference.collaborators
            Samples.cert_ec_no_params Samples.name
            (Samples.node_of
               (Samples.spki_content Samples.algId_ec_no_params
                  Samples.key_ec))
            (Samples.node_of Samples.algId_ec_no_params) 1
            Samples.oid_ecPublicKey __init__ _ _ _ _).
  - sample_locates true
      (Samples.spki_content Samples.algId_ec_no_params Samples.key_ec).
  - sample_algorithmIdentifier Samples.oid_ecPublicKey.
  - by_running.
  - discriminate.
Defined.

Lemma rsa_key_extracted_witness :
  parseBinary Samples.cert_rsa __init__ =
  (mkX509 Samples.cert_rsa (Some (RsaPublicKey Samples.the_rsa_key))
          (Some Samples.name) (Some "rsa"%string), inr tt).
Proof.
  refine (proj1 (@rsa_key_extracted Reference.collaborators
                   Samples.cert_rsa Samples.name
                   (Samples.node_of
                      (Samples.spki_content Samples.algId_rsa
                         Samples.key_rsa))
                   "rsa" __init__ _ _) 12925809%N 65537%N _).
  - sample_locates true
      (Samples.spki_content Samples.algId_rsa Samples.key_rsa).
  - sample_resolves_rsa.
  - exists (Samples.node_of Samples.key_rsa), x00, Samples.RSAPublicKey,
      (Samples.node_of
         (Samples.tlv 2 Samples.rsa_modulus
            ++ Samples.tlv 2 Samples.rsa_exponent)),
      (Samples.node_of Samples.rsa_modulus),
      (Samples.node_of Samples.rsa_exponent).
    repeat split; by_running.
Defined.

(** A point that is not on the curve: the constructor refuses it and
    the parse fails with its error. *)
Lemma ec_key_extracted_witness :
  parseBinary Samples.cert_ec_off_curve __init__ =
  (mkX509 Samples.cert_ec_off_curve None (Some Samples.name)
          (Some "ecdsa"%string), inl (Collaborator KeyConstructionError)).
Proof.
  refine (@ec_key_extracted Reference.collaborators
            Samples.cert_ec_off_curve Samples.name
            (Samples.node_of
               (Samples.spki_content Samples.algId_p256
                  Samples.key_ec_off_curve))
            "ecdsa" NIST256p (skipn 2 Samples.key_ec_off_curve)
            __init__ _ _ _).
  - sample_locates true
      (Samples.spki_content Samples.algId_p256 Samples.key_ec_off_curve).
  - sample_resolves_p256.
  - exists (Samples.node_of Samples.key_ec_off_curve).
    repeat split; by_running.
Defined.

(** A tbsCertificate with a single child: the subject is not found. *)
Lemma decode_failure_stages_witness :
  parseBinary Samples.cert_short_tbs __init__ =
  (mkX509 Samples.cert_short_tbs None None None,
   inl (Collaborator DecodeError)).
Proof.
  refine (proj1 (proj2 (proj2
    (@decode_failure_stages Reference.collaborators
       Samples.cert_short_tbs __init__)))
    (Samples.node_of (Samples.tlv 2 (octets [1]%N))) 2%N DecodeError _ _).
  - exists (Samples.node_of
              (Samples.tlv 0x30 (Samples.tlv 2 (octets [1]%N)))),
      (octet 2), (octets [1; 1]%N).
    repeat split; by_running.
  - by_running.
Defined.

(** The RSA sample, then the sample with an unknown algorithm: the
    RSA key stays beside the new raw encoding. *)
Lemma failed_reparse_keeps_key_witness :
  let failed :=
    fst (parseBinary Samples.cert_dsa
           (fst (parseBinary Samples.cert_rsa __init__))) in
  bytes failed = Samples.cert_dsa /\
  publicKey failed = Some (RsaPublicKey Samples.the_rsa_key).
Proof.
  cbv zeta.
  destruct (@failed_reparse_keeps_key Reference.collaborators
              Samples.cert_rsa Samples.cert_dsa __init__
              (fst (parseBinary Samples.cert_rsa __init__))
              (fst (parseBinary Samples.cert_dsa
                      (fst (parseBinary Samples.cert_rsa __init__))))
              UnrecognizedAlgorithm)
    as (B & (k & K1 & K2) & _).
  - by_running.
  - by_running.
  - split; [exact B|]. rewrite K2, <- K1. by_running.
Defined.

Lemma parse_errors_witness : parse_error UnrecognizedAlgorithm.
Proof.
  apply (@parse_errors Reference.collaborators Samples.cert_dsa __init__
           (fst (parseBinary Samples.cert_dsa __init__))).
  by_running.
Defined.
